(** * KPI analyser for workshop spreadsheets: [analizador.py]

    A shallow embedding of [src/analizador.py] and the properties of its
    column heuristics, client filter, estimators and aggregator.

    Modelling conventions.
    - A Python [str] is a [string] holding one code point below 256 per
      character (Latin-1, enough for the Spanish keywords of the source);
      text beyond that range is outside the model.
    - A Python [float] is an exact rational ([Q]): sums and differences
      carry no rounding error, there is no [inf], and the missing value
      [NaN] is a cell of its own.  The two percentages the source rounds
      with [round(_, 2)] are computed as binary64 does (see [Py.rnd]).
    - A call that can raise returns an [outcome]: a value or the
      exception.  Dates are instants in nanoseconds on 64 bits, without
      time zone or in UTC, and the subtraction of two date columns raises
      as pandas does, on mixed time zones and on overflow.
    - A [DataFrame] is a list of column labels and a list of rows.  Labels
      are the [str()] of the pandas labels and are meant to be pairwise
      distinct, as spreadsheet loaders produce them, so that [df[c]] is one
      column.
    - Columns are untyped (pandas 2.x, dtype [object]): a cell is the
      Python object it holds, [astype(str)] applies [str] to every
      element, the missing ones included, and [Series.str.contains] treats
      its pattern as a regular expression.
    - What pandas and [re] do beyond that (how text parses as a number or
      as a date, how a float prints, regular expressions with
      metacharacters) is not part of the source: it is taken through the
      interfaces [ValueCoercer] and [RegexEngine], which fix only the facts
      this development uses. *)

From Stdlib Require Import Bool Arith List ZArith QArith Qround Qabs Qpower.
From Stdlib Require Import Lia Lqa.
From Stdlib Require Import Strings.Ascii Strings.String DecimalString.
From Stdlib Require Import Sorting.Permutation Sorting.Sorted.
Import ListNotations.

Local Open Scope string_scope.
Local Open Scope Z_scope.

(** ** Python built-ins used by the source *)

Module Py.

(** Code point of a character. *)
Definition ord (c : ascii) : N := N_of_ascii c.

(** [str.isspace] on the code points below 256. *)
Definition isspace (c : ascii) : bool :=
  let n := ord c in
  (((9 <=? n) && (n <=? 13)) || ((28 <=? n) && (n <=? 32))
   || (n =? 133) || (n =? 160))%N.

(** [str.lower] on one code point below 256: A-Z and the accented capitals
    of Latin-1 (all of 192..222 but the multiplication sign 215). *)
Definition lower_char (c : ascii) : ascii :=
  let n := ord c in
  if (((65 <=? n) && (n <=? 90))
      || ((192 <=? n) && (n <=? 222) && negb (n =? 215)))%N
  then ascii_of_N (n + 32) else c.

Fixpoint lower (s : string) : string :=
  match s with
  | EmptyString => EmptyString
  | String c s' => String (lower_char c) (lower s')
  end.

Fixpoint lstrip (s : string) : string :=
  match s with
  | EmptyString => EmptyString
  | String c s' => if isspace c then lstrip s' else s
  end.

(** Drops trailing white space: a character is kept when something is kept
    after it or when it is not white space itself. *)
Fixpoint rstrip (s : string) : string :=
  match s with
  | EmptyString => EmptyString
  | String c s' =>
      match rstrip s' with
      | EmptyString => if isspace c then EmptyString else String c EmptyString
      | t => String c t
      end
  end.

Definition strip (s : string) : string := rstrip (lstrip s).

(** [k in s] on strings. *)
Fixpoint contains (k s : string) : bool :=
  prefix k s ||
  match s with
  | EmptyString => false
  | String _ s' => contains k s'
  end.

(** [any(k in s for k in keywords)]. *)
Definition any_in (keywords : list string) (s : string) : bool :=
  existsb (fun k => contains k s) keywords.

(** Truth value of a string: [not s] holds for the empty string only. *)
Definition truthy (s : string) : bool :=
  match s with EmptyString => false | _ => true end.

(** Rounding to the nearest integer, ties to the even one. *)
Definition round_half_even (q : Q) : Z :=
  let f := Qfloor q in
  match Qcompare (q - inject_Z f) (1 # 2) with
  | Lt => f
  | Gt => f + 1
  | Eq => if Z.even f then f else f + 1
  end.

(** *** Binary floating point

    The source rounds two results with [round(_, 2)]; there the model
    follows the binary64 computation, so that the rounding acts on the
    double the division and the product gave.  A double is the rational it
    stands for.  Overflow is left out: no result is replaced by [inf]. *)

(** The power of two with exponent [k], negative or not. *)
Definition pow2 (k : Z) : Q := (2 ^ k)%Q.

(** The exponent [k] with [2^k <= x < 2^(k+1)], for [x > 0]. *)
Definition flog2 (x : Q) : Z :=
  let k0 := Z.log2 (Qnum x) - Z.log2 (Zpos (Qden x)) in
  if Qle_bool (pow2 k0) x then k0 else k0 - 1.

(** Rounding of an exact result to binary64: the nearest multiple of the
    unit in the last place (53 significant bits, exponent no lower than
    -1074 for the subnormal numbers), ties to the even one. *)
Definition rnd (q : Q) : Q :=
  match Qnum q with
  | 0 => 0%Q
  | _ =>
      let x := Qabs q in
      let e := Z.max (flog2 x - 52) (-1074) in
      let m := round_half_even (x / pow2 e) in
      Qred ((if Qnum q <? 0 then - inject_Z m else inject_Z m) * pow2 e)
  end.

(** Division and product of two doubles; [a / b] of two [int] is this
    division as well, the quotient rounded once. *)
Definition fdiv (a b : Q) : Q := rnd (a / b).
Definition fmul (a b : Q) : Q := rnd (a * b).

(** [round(x, 2)] on a double: the decimal with two places nearest to the
    value of [x], ties to the even one, then the double nearest to that
    decimal. *)
Definition round2 (x : Q) : Q :=
  rnd (inject_Z (round_half_even (x * 100)) / 100).

End Py.


(** ** The pandas data model *)

(** The three missing values a cell can hold. *)
Inductive missing := NaN | PyNone | NaT.

(** A cell of a sheet: text, a whole number (Python [int]), a [float], a
    time stamp without time zone or one in UTC (nanoseconds since the
    epoch, as pandas stores them) or a missing value. *)
Inductive cell :=
| CText (s : string)
| CInt (z : Z)
| CFloat (q : Q)
| CDate (t : Z)
| CDateUtc (t : Z)
| CMissing (m : missing).

Record DataFrame := mkDataFrame {
  columns : list string;
  rows : list (list cell)
}.

(** [len(df)] *)
Definition len (df : DataFrame) : nat := List.length (rows df).

(** [df.empty]: no column or no row. *)
Definition empty (df : DataFrame) : bool :=
  match columns df, rows df with
  | [], _ | _, [] => true
  | _, _ => false
  end.

(** Position of the first label equal to [c]. *)
Fixpoint position (c : string) (cs : list string) : option nat :=
  match cs with
  | [] => None
  | c' :: cs' =>
      if String.eqb c c' then Some O
      else option_map S (position c cs')
  end.

(** Cell [j] of a row; a row that is too short reads as [NaN]. *)
Definition cell_at (j : nat) (r : list cell) : cell := nth j r (CMissing NaN).

(** [df[c]], for a label [c] taken from [df.columns]. *)
Definition getitem (df : DataFrame) (c : string) : list cell :=
  match position c (columns df) with
  | Some j => map (cell_at j) (rows df)
  | None => []
  end.

(** [df[mask]] with a boolean mask aligned with the rows. *)
Fixpoint select {A : Type} (mask : list bool) (l : list A) : list A :=
  match mask, l with
  | b :: mask', x :: l' => if b then x :: select mask' l' else select mask' l'
  | _, _ => []
  end.

(** [isna] on a cell. *)
Definition isna (c : cell) : bool :=
  match c with CMissing _ => true | _ => false end.

(** The value of a cell that holds a number. *)
Definition number (c : cell) : option Q :=
  match c with
  | CInt z => Some (inject_Z z)
  | CFloat q => Some q
  | _ => None
  end.

(** Equality of two cells as Python values: two numbers by their value
    (so that 1 and 1.0 are equal); a text, a number, a time stamp without
    time zone and one with it are never equal to one another. *)
Definition cell_eqb (a b : cell) : bool :=
  match a, b with
  | CText s, CText t => String.eqb s t
  | CDate s, CDate t => Z.eqb s t
  | CDateUtc s, CDateUtc t => Z.eqb s t
  | CMissing m, CMissing n =>
      match m, n with
      | NaN, NaN | PyNone, PyNone | NaT, NaT => true
      | _, _ => false
      end
  | _, _ =>
      match number a, number b with
      | Some p, Some q => Qeq_bool p q
      | _, _ => false
      end
  end.

(** The values of a column in order of first appearance, each once. *)
Fixpoint unique (l : list cell) : list cell :=
  match l with
  | [] => []
  | x :: l' => x :: filter (fun y => negb (cell_eqb x y)) (unique l')
  end.

(** [Series.nunique(dropna=True)] *)
Definition nunique (l : list cell) : nat :=
  List.length (unique (filter (fun c => negb (isna c)) l)).

(** Insertion into a sorted list, and the sort [median] relies on. *)
Fixpoint insert_sorted (x : Z) (l : list Z) : list Z :=
  match l with
  | [] => [x]
  | y :: l' => if x <=? y then x :: l else y :: insert_sorted x l'
  end.

Definition sort (l : list Z) : list Z := fold_right insert_sorted [] l.

(** The middle of a sorted series: the middle value, or the mean of the
    two middle ones. *)
Definition middle (s : list Z) : Q :=
  let n := List.length s in
  if Nat.even n
  then Qred ((inject_Z (nth (n / 2 - 1) s 0) + inject_Z (nth (n / 2) s 0)) / 2)
  else inject_Z (nth (n / 2) s 0).

(** [Series.median()] of a series of whole numbers without missing values.
    The empty series has no median ([NaN]). *)
Definition median (l : list Z) : option Q :=
  match l with
  | [] => None
  | _ => Some (middle (sort l))
  end.

(** A call either returns a value or raises. *)
Inductive exception :=
| ReError | TypeError | OverflowError | ValueError | AttributeError.

Inductive outcome (A : Type) :=
| Returns (a : A)
| Raises (e : exception).
Arguments Returns {A} a.
Arguments Raises {A} e.

Definition bind {A B : Type} (m : outcome A) (k : A -> outcome B)
  : outcome B :=
  match m with
  | Returns a => k a
  | Raises e => Raises e
  end.

Notation "x <- m ;; k" := (bind m (fun x => k))
  (at level 61, m at next level, right associativity).

(** Nanoseconds in a day, the unit of [Timedelta.days]. *)
Definition ns_per_day : Z := 86400 * 1000000000.

(** The values a time stamp or a time difference can hold: the 64-bit
    integers but the least one, which stands for [NaT]. *)
Definition stamp_ok (t : Z) : bool := (- 2 ^ 63 <? t) && (t <? 2 ^ 63).

(** The dtype of a column coerced to dates: [datetime64[ns]],
    [datetime64[ns, tz]], or [object] when time zones are mixed. *)
Inductive dtkind := Naive | Aware | Object.

(** A column coerced to dates: its dtype and its instants, [None] for
    [NaT]. *)
Record DatetimeSeries := mkDatetimeSeries {
  dtype : dtkind;
  stamps : list (option Z)
}.

(** One row of [e - s] on two [datetime64] columns, in nanoseconds: the
    subtraction of the 64-bit integers is checked and raises on overflow;
    a difference that lands on the bit pattern of [NaT] is missing. *)
Definition timedelta (te ts : option Z) : outcome (option Z) :=
  match te, ts with
  | Some a, Some b =>
      let d := a - b in
      if (d <? - 2 ^ 63) || (2 ^ 63 - 1 <? d) then Raises OverflowError
      else if d =? - 2 ^ 63 then Returns None
      else Returns (Some d)
  | _, _ => Returns None
  end.

(** [e - s] row by row; both columns have one entry per row. *)
Fixpoint timedeltas (e s : list (option Z)) : outcome (list (option Z)) :=
  match e, s with
  | x :: e', y :: s' =>
      d <- timedelta x y ;;
      ds <- timedeltas e' s' ;;
      Returns (d :: ds)
  | _, _ => Returns []
  end.

(** [Timedelta.days]: the whole days of a difference, rounded down. *)
Definition days (d : option Z) : option Z :=
  match d with
  | Some x => Some (x / ns_per_day)
  | None => None
  end.

(** What a coercion with [errors="coerce"] must give on a cell whatever
    the rest of the column: a number coerces to its value by
    [pd.to_numeric], [NaN] and [None] stay missing; a time stamp that
    [pd.to_datetime] returns is the one of the cell, and a missing value
    stays missing.  The other cells (text to parse, a date to read as a
    number, [NaT] read as a number, ...) are left to pandas. *)
Definition numeric_of (c : cell) (o : option Q) : Prop :=
  match c with
  | CInt z => o = Some (inject_Z z)
  | CFloat q => o = Some q
  | CMissing NaN | CMissing PyNone => o = None
  | _ => True
  end.

Definition datetime_of (c : cell) (o : option Z) : Prop :=
  match c with
  | CDate t | CDateUtc t => stamp_ok t = true -> o = Some t
  | CMissing _ => o = None
  | _ => True
  end.

(** A column of time stamps without time zone and missing values, and a
    column of time stamps in UTC and missing values with one stamp at
    least. *)
Definition naive_cell (c : cell) : bool :=
  match c with
  | CDate t => stamp_ok t
  | CMissing _ => true
  | _ => false
  end.

Definition utc_cell (c : cell) : bool :=
  match c with
  | CDateUtc t => stamp_ok t
  | CMissing _ => true
  | _ => false
  end.

Definition naive_column (l : list cell) : bool := forallb naive_cell l.

Definition utc_column (l : list cell) : bool :=
  forallb utc_cell l && existsb (fun c => negb (isna c)) l.

(** What pandas does with the content of the cells.
    - [str()] of a float and of the two kinds of time stamps.
    - [pd.to_numeric(_, errors="coerce")] of a column: one entry per cell,
      [None] where the cell degrades to a missing value.
    - [pd.to_datetime(_, errors="coerce")] of a column: it returns a
      column of dates, one entry per cell, or raises (time stamps with
      and without time zone in one column).  A column of time stamps
      without time zone gives [datetime64[ns]], a column of time stamps
      in UTC gives [datetime64[ns, UTC]].
    - [(e - s).dt.days] when one of the two columns has dtype
      [object]: when it returns, it has one entry per row. *)
Class ValueCoercer := {
  str_float : Q -> string;
  str_date : Z -> string;
  str_date_utc : Z -> string;
  to_numeric : list cell -> list (option Q);
  to_datetime : list cell -> outcome DatetimeSeries;
  object_days : DatetimeSeries -> DatetimeSeries -> outcome (list (option Z));
  to_numeric_cells : forall l, Forall2 numeric_of l (to_numeric l);
  to_datetime_cells :
    forall l ds, to_datetime l = Returns ds -> Forall2 datetime_of l (stamps ds);
  to_datetime_naive :
    forall l, naive_column l = true ->
              exists ds, to_datetime l = Returns ds /\ dtype ds = Naive;
  to_datetime_utc :
    forall l, utc_column l = true ->
              exists ds, to_datetime l = Returns ds /\ dtype ds = Aware;
  object_days_length :
    forall e s d, List.length (stamps e) = List.length (stamps s) ->
                  object_days e s = Returns d ->
                  List.length d = List.length (stamps e)
}.

(** The characters [re] gives a meaning to. *)
Definition metachars : string := ".^$*+?{}[]\|()".

Definition is_meta (c : ascii) : bool :=
  Py.contains (String c EmptyString) metachars.

(** A pattern without metacharacters. *)
Fixpoint is_literal (p : string) : bool :=
  match p with
  | EmptyString => true
  | String c p' => negb (is_meta c) && is_literal p'
  end.

(** Some character of the string is not a line feed. *)
Fixpoint has_non_newline (s : string) : bool :=
  match s with
  | EmptyString => false
  | String c s' => negb (Ascii.eqb c "010") || has_non_newline s'
  end.

(** Python's [re] with the flag [IGNORECASE], as [Series.str.contains]
    calls it: [re_compiles p] tells whether [re.compile(p)] returns (it
    raises [re.error] otherwise) and [re_search p s] whether the compiled
    pattern is found in [s].  Three facts about [re] are fixed: a pattern
    without metacharacters is searched as such, ignoring case; the pattern
    [(] does not compile; the pattern [.] finds any character but the line
    feed. *)
Class RegexEngine := {
  re_compiles : string -> bool;
  re_search : string -> string -> bool;
  re_literal : forall p s, is_literal p = true ->
      re_compiles p = true /\
      re_search p s = Py.contains (Py.lower p) (Py.lower s);
  re_open_group : re_compiles "(" = false;
  re_dot : re_compiles "." = true /\
           forall s, re_search "." s = has_non_newline s
}.

(** A [for] loop whose body may raise: the first exception ends it. *)
Fixpoint for_each {A S : Type} (body : S -> A -> outcome S) (l : list A)
  (st : S) : outcome S :=
  match l with
  | [] => Returns st
  | x :: l' => st' <- body st x ;; for_each body l' st'
  end.

(** Assignment [d[k] = v] on a dictionary kept in insertion order. *)
Fixpoint dict_set {V : Type} (d : list (string * V)) (k : string) (v : V)
  : list (string * V) :=
  match d with
  | [] => [(k, v)]
  | (k', v') :: d' =>
      if String.eqb k k' then (k, v) :: d' else (k', v') :: dict_set d' k v
  end.

(** Truth value of a number. *)
Definition nonzero (q : Q) : bool := negb (Qeq_bool q 0).

(** Sum of a coerced series, the missing values skipped. *)
Definition nansum (l : list (option Q)) : Q :=
  fold_right (fun o acc => match o with Some q => (q + acc)%Q | None => acc end)
             0%Q l.

(** Number of [True] in a boolean series. *)
Definition count_true (l : list bool) : Z :=
  Z.of_nat (List.length (filter (fun b => b) l)).

Definition notna {A : Type} (o : option A) : bool :=
  match o with Some _ => true | None => false end.

(** ** The source, function by function *)

Section Analizador.

Context {VC : ValueCoercer} {RE : RegexEngine}.

(** [str] of a Python [int]. *)
Definition str_int (z : Z) : string := NilZero.string_of_int (Z.to_int z).

(** [Series.astype(str)] on a cell: [str] of the element, whatever it is. *)
Definition astype_str (c : cell) : string :=
  match c with
  | CText s => s
  | CInt z => str_int z
  | CFloat q => str_float q
  | CDate t => str_date t
  | CDateUtc t => str_date_utc t
  | CMissing NaN => "nan"
  | CMissing PyNone => "None"
  | CMissing NaT => "NaT"
  end.

(** [Series.str.contains(pat, case=False, na=False)] on a series of
    strings: the pattern is compiled as a regular expression first. *)
Definition str_contains (pat : string) (series : list string)
  : outcome (list bool) :=
  if re_compiles pat then Returns (map (re_search pat) series)
  else Raises ReError.

Definition _norm (s : string) : string := Py.lower (Py.strip s).

Definition ING_HINTS : list string :=
  ["monto"; "neto"; "total"; "importe"; "facturacion"; "ingreso"; "venta";
   "principal"].

Definition COST_HINTS : list string :=
  ["costo"; "costos"; "gasto"; "gastos"; "insumo"; "insumos";
   "repuesto"; "repuestos"; "pintura"; "material"; "materiales";
   "mano de obra"; "mo"; "imposicion"; "imposiciones";
   "arriendo"; "admin"; "administracion"; "equipo de planta"; "generales";
   "financiero"; "financieros"; "interes"; "intereses"].

(** The two tests of the loop body of [_find_numeric_cols] on a label. *)
Definition classified (df : DataFrame) (keywords : list string) (c : string)
  : bool :=
  Py.any_in keywords (_norm c)
  && (0 <? count_true (map notna (to_numeric (getitem df c)))).

Definition _find_numeric_cols (df : DataFrame) (keywords : list string)
  : list string :=
  filter (classified df keywords) (columns df).

(** The identifier keywords; the ninth is "numero" with u acute (code point
    250). *)
Definition keys : list string :=
  ["patente"; "orden"; "oc"; "folio"; "documento"; "presupuesto"; "id";
   "nro"; String "n" (String "250" "mero"); "num"].

(** The two nested loops of [_count_services]: the first keyword, in the
    order of [ks], that some label contains, and for it the first such
    label. *)
Fixpoint first_by_keys (ks : list string) (cols : list string)
  : option string :=
  match ks with
  | [] => None
  | k :: ks' =>
      match find (fun c => Py.contains k (_norm c)) cols with
      | Some c => Some c
      | None => first_by_keys ks' cols
      end
  end.

Definition positive (o : option Q) : bool :=
  match o with Some q => negb (Qle_bool q 0) | None => false end.

Definition _count_services (df : DataFrame) : Z :=
  match first_by_keys keys (columns df) with
  | Some c => Z.of_nat (nunique (getitem df c))
  | None =>
      match _find_numeric_cols df ING_HINTS with
      | c :: _ => count_true (map positive (to_numeric (getitem df c)))
      | [] => 0
      end
  end.

Definition start_keys : list string :=
  ["fecha ingreso"; "ingreso"; "recepcion"; "entrada"].

(** The end keywords; the last is "termino" with e acute (code point 233). *)
Definition end_keys : list string :=
  ["fecha salida"; "salida"; "entrega"; "egreso"; "termino";
   String "t" (String "233" "rmino")].

(** [(e - s).dt.days] on two coerced columns: the subtraction raises
    [TypeError] between a column with time zone and one without; on two
    columns of the same kind it is checked row by row. *)
Definition sub_days (e s : DatetimeSeries) : outcome (list (option Z)) :=
  match dtype e, dtype s with
  | Naive, Naive | Aware, Aware =>
      d <- timedeltas (stamps e) (stamps s) ;;
      Returns (map days d)
  | Naive, Aware | Aware, Naive => Raises TypeError
  | _, _ => object_days e s
  end.

(** The deltas kept by [d[(d.notna()) & (d >= 0) & (d < 365)]]. *)
Fixpoint plausible (d : list (option Z)) : list Z :=
  match d with
  | [] => []
  | Some x :: d' =>
      if (0 <=? x) && (x <? 365) then x :: plausible d' else plausible d'
  | None :: d' => plausible d'
  end.

Definition _lead_time_days (df : DataFrame) : outcome (option Q) :=
  let start_col :=
    find (fun c => Py.any_in start_keys (_norm c)) (columns df) in
  let end_col :=
    find (fun c => Py.any_in end_keys (_norm c)) (columns df) in
  match start_col, end_col with
  | Some sc, Some ec =>
      if Py.truthy sc && Py.truthy ec then
        s <- to_datetime (getitem df sc) ;;
        e <- to_datetime (getitem df ec) ;;
        d <- sub_days e s ;;
        let d := plausible d in
        Returns (if (3 <=? List.length d)%nat then median d else None)
      else Returns None
  | _, _ => Returns None
  end.

Definition _apply_client_filter (df : DataFrame) (client_substr : string)
  : outcome DataFrame :=
  if negb (Py.truthy client_substr) then Returns df
  else
    match find (fun c => Py.contains "cliente" (_norm c)) (columns df) with
    | Some cliente_col =>
        if Py.truthy cliente_col then
          mask <- str_contains client_substr
                    (map astype_str (getitem df cliente_col)) ;;
          Returns (mkDataFrame (columns df) (select mask (rows df)))
        else Returns df
    | None => Returns df
    end.

(** The conversion block of the loop body (the lines under the comment
    "conversion si hay 'estado'"): the value assigned to [conversion], if
    any.  The three patterns are constants without metacharacters, so the
    search of the regular expression is the substring test. *)
Definition conversion_estimate (df2 : DataFrame) : option Q :=
  match find (fun c => Py.contains "estado" (_norm c)
                       || Py.contains "resultado" (_norm c))
             (columns df2) with
  | Some est_col =>
      let est := map (fun c => Py.lower (astype_str c)) (getitem df2 est_col) in
      let gan := count_true (map (Py.contains "ganad") est) in
      let per := count_true (map (Py.contains "perdid") est) in
      let env := count_true (map (Py.contains "enviad") est) in
      let den := gan + per + env in
      if 0 <? den
      then Some (Py.round2
                   (Py.fmul (Py.fdiv (inject_Z gan) (inject_Z den)) 100))
      else None
  | None => None
  end.

(** [float(pd.DataFrame({c: pd.to_numeric(df2[c], ...) for c in cols})
    .sum().sum()) if cols else 0.0] *)
Definition sum_cols (df2 : DataFrame) (cols : list string) : Q :=
  match cols with
  | [] => 0%Q
  | _ => fold_right Qplus 0%Q
           (map (fun c => nansum (to_numeric (getitem df2 c))) cols)
  end.

(** One entry of the dictionary [hojas]. *)
Record SheetSummary := mkSheetSummary {
  filas : Z;
  ing_cols : list string;
  cost_cols : list string;
  ingresos_hoja : Q;
  costos_hoja : Q
}.

(** The local variables the loop of [analizar_datos_taller] updates. *)
Record Locals := mkLocals {
  total_ing : Q;
  total_cost : Q;
  total_services : Z;
  conversion : option Q;
  lead_time : option Q;
  hojas_acc : list (string * SheetSummary)
}.

(** The dictionary [analizar_datos_taller] returns. *)
Record Report := mkReport {
  ingresos : Q;
  costos : Q;
  margen : Q;
  margen_pct : Q;
  servicios : Z;
  ticket_promedio : option Q;
  conversion_pct : option Q;
  lead_time_mediano_dias : option Q;
  hojas : list (string * SheetSummary)
}.

Definition initial : Locals := mkLocals 0%Q 0%Q 0 None None [].

(** The body of [for hoja, df in data.items()]. *)
Definition loop_body (cliente_contiene : string) (st : Locals)
  (item : string * option DataFrame) : outcome Locals :=
  let (hoja, odf) := item in
  match odf with
  | None => Returns st
  | Some df =>
      if empty df then Returns st
      else
        df2 <- _apply_client_filter df cliente_contiene ;;
        let ing := _find_numeric_cols df2 ING_HINTS in
        let cost := _find_numeric_cols df2 COST_HINTS in
        let ing_sum := sum_cols df2 ing in
        let cost_sum := sum_cols df2 cost in
        lt <- _lead_time_days df2 ;;
        Returns
          {| total_ing := (total_ing st + ing_sum)%Q;
             total_cost := (total_cost st + cost_sum)%Q;
             total_services := total_services st + _count_services df2;
             conversion :=
               match conversion_estimate df2 with
               | Some v => Some v
               | None => conversion st
               end;
             lead_time :=
               match lt with
               | Some v => Some v
               | None => lead_time st
               end;
             hojas_acc :=
               dict_set (hojas_acc st) hoja
                 (mkSheetSummary (Z.of_nat (len df2)) ing cost
                                 ing_sum cost_sum) |}
  end.

(** What follows the loop: the report built from the local variables. *)
Definition compose (st : Locals) : Report :=
  let margen := (total_ing st - total_cost st)%Q in
  let margen_pct :=
    if nonzero (total_ing st)
    then Py.fmul (Py.fdiv margen (total_ing st)) 100
    else 0%Q in
  let ticket :=
    if negb (total_services st =? 0)
    then Some (total_ing st / inject_Z (total_services st))%Q
    else None in
  {| ingresos := total_ing st;
     costos := total_cost st;
     margen := margen;
     margen_pct := Py.round2 margen_pct;
     servicios := total_services st;
     ticket_promedio := ticket;
     conversion_pct := conversion st;
     lead_time_mediano_dias := lead_time st;
     hojas := hojas_acc st |}.

(** [data] is the list of the items of the dictionary, in its iteration
    order; a sheet may be [None]. *)
Definition analizar_datos_taller (data : list (string * option DataFrame))
  (cliente_contiene : string) : outcome Report :=
  st <- for_each (loop_body cliente_contiene) data initial ;;
  Returns (compose st).

End Analizador.


(** ** Reference instances of the library interfaces

    They show that the interfaces are inhabited and let the functions run on
    concrete sheets.  Text coerces to a number when it is a run of decimal
    digits and never to a date, a date never coerces to a number nor a
    number to a date; a column that holds time stamps with and without
    time zone is refused; a float prints as a fraction and a time stamp as
    its nanoseconds; a pattern compiles when it has no metacharacter or is
    the single dot. *)

Definition digit_value (c : ascii) : option Z :=
  let n := Py.ord c in
  if ((48 <=? n) && (n <=? 57))%N then Some (Z.of_N n - 48) else None.

Fixpoint digits_value (acc : Z) (s : string) : option Z :=
  match s with
  | EmptyString => Some acc
  | String c s' =>
      match digit_value c with
      | Some d => digits_value (10 * acc + d) s'
      | None => None
      end
  end.

Definition digits_number (s : string) : option Q :=
  match s with
  | EmptyString => None
  | _ => option_map inject_Z (digits_value 0 s)
  end.

Definition reference_str_float (q : Q) : string :=
  str_int (Qnum q) ++ "/" ++ str_int (Zpos (Qden q)).

Definition reference_numeric (c : cell) : option Q :=
  match c with
  | CInt z => Some (inject_Z z)
  | CFloat q => Some q
  | CText s => digits_number s
  | CDate _ | CDateUtc _ | CMissing _ => None
  end.

Definition reference_stamp (c : cell) : option Z :=
  match c with
  | CDate t | CDateUtc t => if stamp_ok t then Some t else None
  | _ => None
  end.

Definition is_naive_stamp (c : cell) : bool :=
  match c with CDate _ => true | _ => false end.

Definition is_utc_stamp (c : cell) : bool :=
  match c with CDateUtc _ => true | _ => false end.

Definition reference_datetime (l : list cell) : outcome DatetimeSeries :=
  if existsb is_naive_stamp l && existsb is_utc_stamp l
  then Raises ValueError
  else Returns (mkDatetimeSeries (if existsb is_utc_stamp l then Aware
                                  else Naive)
                                 (map reference_stamp l)).

Definition reference_coercer : ValueCoercer.
Proof.
  refine {| str_float := reference_str_float;
            str_date := str_int;
            str_date_utc := fun t => str_int t ++ "+00:00";
            to_numeric := map reference_numeric;
            to_datetime := reference_datetime;
            object_days := fun _ _ => Raises AttributeError |}.
  - intros l. induction l as [|[s|z|q|t|t|[| |]] l IH]; constructor;
      simpl; trivial.
  - intros l ds. unfold reference_datetime.
    destruct (existsb is_naive_stamp l && existsb is_utc_stamp l);
      [discriminate|]. intros [= <-]. simpl.
    clear. induction l as [|[s|z|q|t|t|m] l IH]; constructor;
      simpl; trivial; now intros ->.
  - intros l H. unfold reference_datetime.
    assert (E : existsb is_utc_stamp l = false).
    { unfold naive_column in H.
      induction l as [|c l IH]; [reflexivity|]. simpl in *.
      apply andb_true_iff in H as [Hc Hl]. rewrite (IH Hl).
      now destruct c. }
    rewrite E, andb_false_r. eauto.
  - intros l H. unfold reference_datetime, utc_column in *.
    apply andb_true_iff in H as [Hu Hn].
    assert (E : existsb is_naive_stamp l = false).
    { clear Hn. induction l as [|c l IH]; [reflexivity|]. simpl in *.
      apply andb_true_iff in Hu as [Hc Hl]. rewrite (IH Hl).
      now destruct c. }
    assert (U : existsb is_utc_stamp l = true).
    { induction l as [|c l IH]; [discriminate|]. simpl in *.
      apply andb_true_iff in Hu as [Hc Hl].
      destruct c; simpl in *; try discriminate; try reflexivity.
      apply IH; assumption. }
    rewrite E, U. simpl. eauto.
  - discriminate.
Defined.

Definition reference_compiles (p : string) : bool :=
  is_literal p || String.eqb p ".".

Definition reference_search (p s : string) : bool :=
  if is_literal p then Py.contains (Py.lower p) (Py.lower s)
  else has_non_newline s.

Definition reference_engine : RegexEngine.
Proof.
  refine {| re_compiles := reference_compiles;
            re_search := reference_search |}.
  - intros p s H. unfold reference_compiles, reference_search.
    rewrite H. split; reflexivity.
  - reflexivity.
  - split; reflexivity.
Defined.

(** ** Notions used to state the properties *)

(** [x] is the first element of [l] that [f] accepts. *)
Definition first_match {A : Type} (f : A -> bool) (l : list A) (x : A)
  : Prop :=
  exists pre post,
    l = (pre ++ x :: post)%list /\ f x = true /\
    forall y, In y pre -> f y = false.

(** [f] accepts no element of [l]. *)
Definition no_match {A : Type} (f : A -> bool) (l : list A) : Prop :=
  forall y, In y l -> f y = false.

(** The last defined value of a list of optional values. *)
Fixpoint last_some {A : Type} (l : list (option A)) : option A :=
  match l with
  | [] => None
  | x :: l' =>
      match last_some l' with
      | Some v => Some v
      | None => x
      end
  end.

(** The sheets the loop does not skip, in iteration order. *)
Fixpoint kept_sheets (data : list (string * option DataFrame))
  : list DataFrame :=
  match data with
  | [] => []
  | (_, None) :: data' => kept_sheets data'
  | (_, Some df) :: data' =>
      if empty df then kept_sheets data' else df :: kept_sheets data'
  end.

(** The rows of a frame whose cell [j] passes the test [p] once written
    as text by [astype_str]. *)
Definition rows_where `{ValueCoercer} (p : string -> bool) (j : nat)
  (df : DataFrame) : list (list cell) :=
  filter (fun r => p (astype_str (cell_at j r))) (rows df).

(** The header tests of the source. *)
Definition is_start (c : string) : bool := Py.any_in start_keys (_norm c).
Definition is_end (c : string) : bool := Py.any_in end_keys (_norm c).
Definition is_status (c : string) : bool :=
  Py.contains "estado" (_norm c) || Py.contains "resultado" (_norm c).
Definition is_client (c : string) : bool := Py.contains "cliente" (_norm c).

(** The filter [d.notna() & (d >= 0) & (d < 365)] on one delta. *)
Definition in_range (o : option Z) : bool :=
  match o with
  | Some x => (0 <=? x) && (x <? 365)
  | None => false
  end.

(** The whole days between a start and an end instant, in nanoseconds. *)
Definition whole_days (te ts : Z) : Z := (te - ts) / 86400000000000.

(** The difference of one row (end, start) of two date columns of the
    same kind goes beyond 64 bits. *)
Definition row_overflows (p : option Z * option Z) : bool :=
  match p with
  | (Some te, Some ts) =>
      (te - ts <? - 9223372036854775808)
      || (9223372036854775807 <? te - ts)
  | _ => false
  end.

(** The whole days of one row (end, start): none when a date is missing
    (or when the difference has the bit pattern of [NaT]). *)
Definition row_days (p : option Z * option Z) : option Z :=
  match p with
  | (Some te, Some ts) =>
      if te - ts =? - 9223372036854775808 then None
      else Some (whole_days te ts)
  | _ => None
  end.

(** The two columns are of the same kind, both without or both with time
    zone; or one is with and the other without. *)
Definition same_kind (e s : DatetimeSeries) : Prop :=
  (dtype e = Naive /\ dtype s = Naive) \/ (dtype e = Aware /\ dtype s = Aware).

Definition mixed_kinds (e s : DatetimeSeries) : Prop :=
  (dtype e = Naive /\ dtype s = Aware) \/ (dtype e = Aware /\ dtype s = Naive).

(** The pattern cannot make the client filter raise: it is empty (the
    filter returns at once) or it compiles. *)
Definition pattern_ok `{RegexEngine} (s : string) : bool :=
  negb (Py.truthy s) || re_compiles s.

(** The client filter applied to every sheet of a list, in order. *)
Fixpoint filter_all `{ValueCoercer} `{RegexEngine} (s : string)
  (dfs : list DataFrame) : outcome (list DataFrame) :=
  match dfs with
  | [] => Returns []
  | df :: dfs' =>
      df2 <- _apply_client_filter df s ;;
      rest <- filter_all s dfs' ;;
      Returns (df2 :: rest)
  end.

(** [o] is the value [f] gives on the last sheet where it gives one, and
    no value at all when it gives none on any sheet. *)
Definition last_defined {A : Type} (f : DataFrame -> option A)
  (dfs : list DataFrame) (o : option A) : Prop :=
  match o with
  | Some v =>
      exists pre df post,
        dfs = (pre ++ df :: post)%list /\ f df = Some v /\
        Forall (fun d => f d = None) post
  | None => Forall (fun d => f d = None) dfs
  end.

(** [o] is the value [f] returns on the last sheet where it returns one,
    and no value at all when it returns none on every sheet. *)
Definition last_returned {A : Type} (f : DataFrame -> outcome (option A))
  (dfs : list DataFrame) (o : option A) : Prop :=
  match o with
  | Some v =>
      exists pre df post,
        dfs = (pre ++ df :: post)%list /\ f df = Returns (Some v) /\
        Forall (fun d => f d = Returns None) post
  | None => Forall (fun d => f d = Returns None) dfs
  end.





(** The instant of a time stamp, of either kind. *)
Definition stamp_value (c : cell) : option Z :=
  match c with CDate t | CDateUtc t => Some t | _ => None end.

(** A cell that holds a number, [NaN] or [None]. *)
Definition number_or_nan (c : cell) : bool :=
  match c with
  | CInt _ | CFloat _ | CMissing NaN | CMissing PyNone => true
  | _ => false
  end.

(** [v] is the median of the sorted series [l]: the middle value, or the
    mean of the two middle ones. *)
Definition is_median (l : list Z) (v : Q) : Prop :=
  exists k : nat,
    (List.length l = (2 * k + 1)%nat /\ v = inject_Z (nth k l 0)) \/
    (List.length l = (2 * k + 2)%nat /\
     (v == (inject_Z (nth k l 0%Z) + inject_Z (nth (k + 1) l 0%Z)) / 2)%Q).

(** ** Sample sheets *)

(** [day n] is midnight of day [n] after the epoch. *)
Definition day (n : Z) : cell := CDate (n * 86400000000000).

Definition sample_clients : DataFrame :=
  mkDataFrame ["Cliente"; "Total"]
    [[CText "Acme"; CInt 100]; [CText "Otro"; CInt 50];
     [CText "ACME sa"; CText "250"]; [CMissing NaN; CInt 7]].

Definition sample_clients_acme : DataFrame :=
  mkDataFrame ["Cliente"; "Total"]
    [[CText "Acme"; CInt 100]; [CText "ACME sa"; CText "250"]].

(** Three rows with deltas of 6 days, of 2 days and 5 hours, and of 4
    days; the other rows miss a date. *)
Definition sample_dates : DataFrame :=
  mkDataFrame ["Fecha Ingreso"; "Fecha Salida"]
    [[day 10; day 16]; [CMissing NaT; day 12];
     [day 20; CDate (22 * 86400000000000 + 18000000000000)];
     [day 30; CMissing NaN]; [day 40; day 44]].

(** The same with a row that ends a day before it starts and a row that
    lasts 400 days. *)
Definition sample_dates_wide : DataFrame :=
  mkDataFrame ["Fecha Ingreso"; "Fecha Salida"]
    (rows sample_dates ++ [[day 50; day 49]; [day 60; day 460]]).

(** The same with a fourth row, of 8 days. *)
Definition sample_dates_even : DataFrame :=
  mkDataFrame ["Fecha Ingreso"; "Fecha Salida"]
    (rows sample_dates ++ [[day 70; day 78]]).

(** A start column without time zone and an end column in UTC. *)
Definition sample_dates_utc : DataFrame :=
  mkDataFrame ["Fecha Ingreso"; "Fecha Salida"]
    [[day 10; CDateUtc (16 * 86400000000000)];
     [day 20; CDateUtc (22 * 86400000000000)];
     [day 40; CDateUtc (44 * 86400000000000)]].

(** Two time stamps of the years 1684 and 2255: their difference does not
    fit 64 bits of nanoseconds. *)
Definition sample_dates_far : DataFrame :=
  mkDataFrame ["Fecha Ingreso"; "Fecha Salida"]
    [[CDate (- 9000000000000000000); CDate 9000000000000000000]].

Definition sample_status : DataFrame :=
  mkDataFrame ["Estado"]
    [[CText "Ganado"]; [CText "Perdido"]; [CText "Enviado"];
     [CText "ganado"]].

Definition sample_orders : DataFrame :=
  mkDataFrame ["Orden"] [[CInt 1]; [CInt 1]; [CInt 2]; [CInt 3]].



(** 23 quotes won and 137 lost. *)
Definition sample_status_160 : DataFrame :=
  mkDataFrame ["Resultado"]
    (repeat [CText "GANADO"] 23 ++ repeat [CText "perdido"] 137).

(** One quote won and 31 lost: 3.125 percent, which binary64 holds
    exactly, a tie between 3.12 and 3.13. *)
Definition sample_status_32 : DataFrame :=
  mkDataFrame ["Estado"] ([CText "Ganado"] :: repeat [CText "Perdido"] 31).

(** One cell counts in two buckets. *)
Definition sample_status_both : DataFrame :=
  mkDataFrame ["Estado"]
    [[CText "Enviado y ganado"]; [CText "Perdido"]; [CMissing NaN];
     [CText "pendiente"]].

Definition sample_sales : DataFrame :=
  mkDataFrame ["Total"] [[CInt 600]; [CText "400"]; [CText "s/i"]].

Definition sample_costs : DataFrame :=
  mkDataFrame ["Costo"] [[CInt 150]; [CMissing NaN]; [CFloat 250]].

Definition sample_blank : DataFrame := mkDataFrame ["Total"] [].


(** Sales of 1000 and costs of 400 on two sheets, next to a sheet without
    rows and a sheet that is absent. *)
Definition sample_book : list (string * option DataFrame) :=
  [("ventas", Some sample_sales); ("vacia", Some sample_blank);
   ("costos", Some sample_costs); ("nula", None)].

(** Sales of 3 and costs of 1: a margin of two thirds. *)
Definition sample_thirds : list (string * option DataFrame) :=
  [("ventas", Some (mkDataFrame ["Venta"] [[CInt 3]]));
   ("gastos", Some (mkDataFrame ["Gasto"] [[CInt 1]]))].

(** Sales of 40000 and costs of 38930: a margin of 2.675 percent, which
    binary64 holds just below. *)
Definition sample_tie : list (string * option DataFrame) :=
  [("ventas", Some (mkDataFrame ["Venta"] [[CInt 40000]]));
   ("gastos", Some (mkDataFrame ["Gasto"] [[CInt 38930]]))].

(** Sales of 32 and costs of 31: a margin of 3.125 percent, a tie that
    binary64 holds exactly. *)
Definition sample_half : list (string * option DataFrame) :=
  [("ventas", Some (mkDataFrame ["Venta"] [[CInt 32]]));
   ("gastos", Some (mkDataFrame ["Gasto"] [[CInt 31]]))].

(** The status sheet comes first: the sheets after it have no status
    column. *)
Definition sample_pipeline : list (string * option DataFrame) :=
  [("estados", Some sample_status); ("fechas", Some sample_dates);
   ("ordenes", Some sample_orders)].

(** The source run with the reference instances. *)
Definition run : list (string * option DataFrame) -> string -> outcome Report :=
  @analizar_datos_taller reference_coercer reference_engine.

(** ** Further notions *)

(** The loop skips the item: the sheet is [None] or empty. *)
Definition skipped (item : string * option DataFrame) : bool :=
  match snd item with
  | None => true
  | Some df => empty df
  end.

(** The items the loop processes, in iteration order. *)
Definition processed (data : list (string * option DataFrame))
  : list (string * option DataFrame) :=
  filter (fun item => negb (skipped item)) data.

(** The sum of one field over the sheet summaries of a report. *)
Definition sum_field (f : SheetSummary -> Q)
  (h : list (string * SheetSummary)) : Q :=
  fold_right (fun e acc => (f (snd e) + acc)%Q) 0%Q h.

(** A string that is empty or does not start with white space. *)
Definition no_lead (s : string) : bool :=
  match s with
  | EmptyString => true
  | String c _ => negb (Py.isspace c)
  end.


(** Two sheets without any client column. *)
Definition sample_no_client : list (string * option DataFrame) :=
  [("ventas", Some sample_sales); ("costos", Some sample_costs)].

(** A cell that holds [NaN] or [None]. *)
Definition nan_or_none (c : cell) : bool :=
  match c with
  | CMissing NaN | CMissing PyNone => true
  | _ => false
  end.

(** Two rows whose start has no time zone and whose end is in UTC. *)
Definition sample_two_rows : DataFrame :=
  mkDataFrame ["Ingreso"; "Salida"]
    [[day 1; CDateUtc (2 * 86400000000000)];
     [day 3; CDateUtc (4 * 86400000000000)]].

(** The sheet has no start column or no end column, so that
    [_lead_time_days] leaves its columns alone. *)
Definition no_date_pair (df : DataFrame) : Prop :=
  no_match is_start (columns df) \/ no_match is_end (columns df).

(** ** Facts about the Python built-ins *)

Lemma prefix_app (k s : string) :
  prefix k s = true <-> exists b, s = k ++ b.
Proof.
  revert s; induction k as [|c k IH]; intros s; simpl.
  - split; [intros _; now exists s | intros _; now destruct s].
  - destruct s as [|d s]; simpl.
    + split; [discriminate | intros [b Hb]; discriminate].
    + destruct (ascii_dec c d) as [->|Hne].
      * rewrite IH. split; intros [b Hb]; exists b; congruence.
      * split; [discriminate | intros [b Hb]; congruence].
Qed.

(** [contains] is the substring test. *)
Lemma contains_infix (k s : string) :
  Py.contains k s = true <-> exists a b, s = a ++ k ++ b.
Proof.
  induction s as [|d s IH].
  - destruct k as [|c k]; simpl.
    + split; [intros _; now exists "", "" | reflexivity].
    + split; [discriminate | intros [a [b Hab]]].
      destruct a; discriminate.
  - change (Py.contains k (String d s))
      with (prefix k (String d s) || Py.contains k s).
    rewrite orb_true_iff, IH, prefix_app. split.
    + intros [[b Hb] | [a [b Hab]]].
      * now exists "", b.
      * exists (String d a), b. simpl. now rewrite Hab.
    + intros [a [b Hab]]. destruct a as [|e a]; simpl in Hab.
      * left. now exists b.
      * right. exists a, b. congruence.
Qed.

Lemma contains_empty_hay (k : string) :
  Py.truthy k = true -> Py.contains k "" = false.
Proof. destruct k; [discriminate | reflexivity]. Qed.

Lemma lower_app (a b : string) :
  Py.lower (a ++ b) = Py.lower a ++ Py.lower b.
Proof. induction a as [|c a IH]; simpl; [reflexivity | now rewrite IH]. Qed.

Lemma lower_split (s x y : string) :
  Py.lower s = x ++ y ->
  exists a b, s = a ++ b /\ Py.lower a = x /\ Py.lower b = y.
Proof.
  revert s; induction x as [|c x IH]; intros s Hs; simpl in Hs.
  - now exists "", s.
  - destruct s as [|d s]; simpl in Hs; [discriminate|].
    injection Hs as Hc Hs. destruct (IH s Hs) as [a [b [-> [Ha Hb]]]].
    exists (String d a), b. simpl. now rewrite Hc, Ha.
Qed.

(** The search that ignores case: some piece of [s] is [k] up to case. *)
Lemma contains_lower (k s : string) :
  Py.contains k (Py.lower s) = true <->
  exists a m b, s = a ++ m ++ b /\ Py.lower m = k.
Proof.
  rewrite contains_infix. split.
  - intros [x [y Hxy]].
    destruct (lower_split _ _ _ Hxy) as [a [t [-> [_ Ht]]]].
    destruct (lower_split _ _ _ Ht) as [m [b [-> [Hm _]]]].
    now exists a, m, b.
  - intros [a [m [b [-> Hm]]]].
    exists (Py.lower a), (Py.lower b).
    now rewrite !lower_app, Hm.
Qed.

(** A label that contains a keyword after normalisation is not empty. *)
Lemma norm_empty : _norm "" = "".
Proof. reflexivity. Qed.

Lemma has_key_truthy (k c : string) :
  Py.truthy k = true -> Py.contains k (_norm c) = true -> Py.truthy c = true.
Proof.
  intros Hk Hc. destruct c; [|reflexivity].
  rewrite norm_empty, contains_empty_hay in Hc by assumption. discriminate.
Qed.

Lemma any_in_truthy (ks : list string) (c : string) :
  forallb Py.truthy ks = true -> Py.any_in ks (_norm c) = true ->
  Py.truthy c = true.
Proof.
  unfold Py.any_in. intros Hks Hc.
  apply existsb_exists in Hc as [k [Hin Hk]].
  rewrite forallb_forall in Hks.
  eapply has_key_truthy; eauto.
Qed.

(** ** Facts about lists and frames *)

Lemma find_first_match {A : Type} (f : A -> bool) (l : list A) (x : A) :
  find f l = Some x <-> first_match f l x.
Proof.
  unfold first_match. induction l as [|y l IH]; simpl.
  - split; [discriminate | intros [pre [post [H _]]]].
    destruct pre; discriminate.
  - destruct (f y) eqn:Hy.
    + split.
      * intros [= ->]. exists [], l. repeat split; [assumption | intros ? []].
      * intros [pre [post [Hl [Hx Hpre]]]]. destruct pre as [|z pre].
        -- simpl in Hl. congruence.
        -- injection Hl as -> _. rewrite Hpre in Hy by now left. discriminate.
    + rewrite IH. split.
      * intros [pre [post [-> [Hx Hpre]]]]. exists (y :: pre), post.
        repeat split; [assumption | intros z [<- | Hz]; auto].
      * intros [pre [post [Hl [Hx Hpre]]]]. destruct pre as [|z pre].
        -- simpl in Hl. injection Hl as -> _. congruence.
        -- injection Hl as -> ->. exists pre, post.
           repeat split; [assumption | intros; apply Hpre; now right].
Qed.

Lemma find_no_match {A : Type} (f : A -> bool) (l : list A) :
  find f l = None <-> no_match f l.
Proof.
  unfold no_match. induction l as [|y l IH]; simpl.
  - split; [intros _ ? [] | reflexivity].
  - destruct (f y) eqn:Hy.
    + split; [discriminate | intros H]. rewrite H in Hy by now left.
      discriminate.
    + rewrite IH. split; [intros H z [<- | Hz]; auto | intros H z Hz].
      apply H. now right.
Qed.

Lemma select_map {A : Type} (p : A -> bool) (l : list A) :
  select (map p l) l = filter p l.
Proof.
  induction l as [|x l IH]; simpl; [reflexivity|].
  rewrite IH. reflexivity.
Qed.

Lemma filter_twice {A : Type} (p : A -> bool) (l : list A) :
  filter p (filter p l) = filter p l.
Proof.
  induction l as [|x l IH]; simpl; [reflexivity|].
  destruct (p x) eqn:Hx; simpl; [rewrite Hx|]; now rewrite IH.
Qed.

Lemma position_first (c : string) (cs : list string) :
  In c cs -> exists j, position c cs = Some j /\ nth_error cs j = Some c.
Proof.
  induction cs as [|d cs IH]; simpl; [intros []|].
  intros Hin. destruct (String.eqb_spec c d) as [->|Hne].
  - now exists O.
  - destruct Hin as [->|Hin]; [congruence|].
    destruct (IH Hin) as [j [Hj Hn]]. exists (S j). now rewrite Hj.
Qed.

Lemma first_match_in {A : Type} (f : A -> bool) (l : list A) (x : A) :
  first_match f l x -> In x l.
Proof. intros [pre [post [-> _]]]. apply in_elt. Qed.

(** ** Rounding *)

Lemma round_half_even_close (q : Q) :
  (Qabs (inject_Z (Py.round_half_even q) - q) <= 1 # 2)%Q.
Proof.
  unfold Py.round_half_even.
  pose proof (Qfloor_le q) as Hlo. pose proof (Qlt_floor q) as Hhi.
  set (f := Qfloor q) in *.
  assert (Hup : (inject_Z (f + 1) == inject_Z f + 1)%Q)
    by (rewrite inject_Z_plus; reflexivity).
  rewrite Hup in Hhi.
  destruct (Qcompare (q - inject_Z f) (1 # 2)) eqn:Hc.
  - apply Qeq_alt in Hc.
    destruct (Z.even f); try rewrite Hup; apply Qabs_case; intros _; lra.
  - apply Qlt_alt in Hc. apply Qabs_case; intros _; lra.
  - apply Qgt_alt in Hc. rewrite Hup. apply Qabs_case; intros _; lra.
Qed.

(** ** Binary floating point *)

Section Binary64.

Import Py.
Local Open Scope Q_scope.

Lemma pow2_pos (k : Z) : 0 < pow2 k.
Proof. apply Qpower_0_lt. reflexivity. Qed.

Lemma pow2_add (a b : Z) : pow2 (a + b) == pow2 a * pow2 b.
Proof. apply Qpower_plus. discriminate. Qed.

Lemma pow2_nonneg_exp (k : Z) : (0 <= k)%Z -> pow2 k == inject_Z (2 ^ k).
Proof. intros H. unfold pow2. now rewrite Zpower_Qpower. Qed.

Lemma pow2_inv (k : Z) : pow2 k * pow2 (- k) == 1.
Proof.
  rewrite <- pow2_add. replace (k + - k)%Z with 0%Z by lia. reflexivity.
Qed.

Lemma pow2_le (a b : Z) : (a <= b)%Z -> pow2 a <= pow2 b.
Proof. intros H. apply Qpower_le_compat_l; [exact H | discriminate]. Qed.

Lemma pow2_lt_inv (a b : Z) : pow2 a < pow2 b -> (a < b)%Z.
Proof.
  intros H. destruct (Z.lt_ge_cases a b) as [L|G]; [exact L|].
  apply pow2_le in G. lra.
Qed.

Lemma flog2_lower (x : Q) : 0 < x -> pow2 (flog2 x) <= x.
Proof.
  intros Hx. unfold flog2.
  destruct x as [a b]. simpl Qnum. simpl Qden.
  assert (Ha : (0 < a)%Z) by (unfold Qlt in Hx; simpl in Hx; lia).
  set (la := Z.log2 a). set (lb := Z.log2 (Z.pos b)).
  destruct (Qle_bool (pow2 (la - lb)) (a # b)) eqn:E.
  - now apply Qle_bool_iff.
  - assert (La : (2 ^ la <= a)%Z) by (apply Z.log2_spec; exact Ha).
    assert (Lb : (Z.pos b < 2 ^ (lb + 1))%Z).
    { replace (lb + 1)%Z with (Z.succ lb) by lia. apply Z.log2_spec. lia. }
    assert (la0 : (0 <= la)%Z) by apply Z.log2_nonneg.
    assert (lb0 : (0 <= lb)%Z) by apply Z.log2_nonneg.
    replace (la - lb - 1)%Z with (la + - (lb + 1))%Z by lia.
    rewrite pow2_add.
    assert (P : pow2 (lb + 1) * pow2 (- (lb + 1)) == 1) by apply pow2_inv.
    rewrite (pow2_nonneg_exp (lb + 1)) in P by lia.
    rewrite (pow2_nonneg_exp la) by lia.
    pose proof (pow2_pos (- (lb + 1))) as Pp.
    set (u := pow2 (- (lb + 1))) in *.
    rewrite (Qmake_Qdiv a b).
    apply Qle_shift_div_l; [reflexivity|].
    assert (Qa : inject_Z (2 ^ la) <= inject_Z a) by (rewrite <- Zle_Qle; exact La).
    assert (Qb : inject_Z (Z.pos b) <= inject_Z (2 ^ (lb + 1)))
      by (rewrite <- Zle_Qle; lia).
    assert (Pa : 0 < inject_Z (2 ^ la)).
    { rewrite <- (pow2_nonneg_exp la) by lia. apply pow2_pos. }
    set (A := inject_Z (2 ^ la)) in *. set (B := inject_Z (Z.pos b)) in *.
    set (C := inject_Z (2 ^ (lb + 1))) in *. set (D := inject_Z a) in *.
    apply Qle_trans with (A * u * C).
    + apply Qmult_le_l; [|exact Qb]. 
      apply Qmult_lt_0_compat; assumption.
    + setoid_replace (A * u * C) with (A * (C * u)) by ring.
      rewrite P, Qmult_1_r. exact Qa.
Qed.

(** The exponent of the unit in the last place of [x > 0]. *)
Definition ulp_exp (x : Q) : Z := Z.max (flog2 x - 52) (-1074).

Lemma rnd_zero (q : Q) : q == 0 -> rnd q = 0.
Proof.
  destruct q as [[|p|p] b]; unfold Qeq; simpl; intros H;
    [reflexivity | lia | lia].
Qed.

Lemma rnd_pos (q : Q) :
  0 < q ->
  rnd q == inject_Z (round_half_even (q / pow2 (ulp_exp q))) * pow2 (ulp_exp q).
Proof.
  destruct q as [[|p|p] b]; unfold Qlt; simpl; intros H; try lia.
  unfold rnd. simpl Qnum. cbv iota.
  change (Qabs (Z.pos p # b)) with (Z.pos p # b).
  change (Z.pos p <? 0)%Z with false. cbv iota.
  rewrite Qred_correct. reflexivity.
Qed.

Lemma rnd_opp (q : Q) : rnd (- q) == - rnd q.
Proof.
  destruct q as [[|p|p] b]; [reflexivity | |].
  - change (- (Z.pos p # b)) with (Z.neg p # b).
    unfold rnd. simpl Qnum. cbv iota.
    change (Qabs (Z.neg p # b)) with (Z.pos p # b).
    change (Qabs (Z.pos p # b)) with (Z.pos p # b).
    change (Z.neg p <? 0)%Z with true. change (Z.pos p <? 0)%Z with false.
    cbv iota. rewrite !Qred_correct.
    generalize (pow2 (Z.max (flog2 (Z.pos p # b) - 52) (-1074))). intros u.
    generalize (inject_Z (round_half_even ((Z.pos p # b) / u))). intros m.
    ring.
  - change (- (Z.neg p # b)) with (Z.pos p # b).
    unfold rnd. simpl Qnum. cbv iota.
    change (Qabs (Z.neg p # b)) with (Z.pos p # b).
    change (Qabs (Z.pos p # b)) with (Z.pos p # b).
    change (Z.neg p <? 0)%Z with true. change (Z.pos p <? 0)%Z with false.
    cbv iota. rewrite !Qred_correct.
    generalize (pow2 (Z.max (flog2 (Z.pos p # b) - 52) (-1074))). intros u.
    generalize (inject_Z (round_half_even ((Z.pos p # b) / u))). intros m.
    ring.
Qed.

Lemma round_half_even_lower (a : Z) (q : Q) :
  inject_Z a <= q -> (a <= round_half_even q)%Z.
Proof.
  intros Ha. unfold round_half_even.
  assert (Hfa : (a <= Qfloor q)%Z).
  { rewrite <- (Qfloor_Z a). now apply Qfloor_resp_le. }
  destruct (Qcompare _ _); [destruct (Z.even _)| |]; lia.
Qed.

Lemma round_half_even_upper (b : Z) (q : Q) :
  q <= inject_Z b -> (round_half_even q <= b)%Z.
Proof.
  intros Hb. unfold round_half_even.
  pose proof (Qfloor_le q) as Hlo.
  assert (Hfb : (Qfloor q <= b)%Z).
  { rewrite <- (Qfloor_Z b). now apply Qfloor_resp_le. }
  set (f := Qfloor q) in *.
  assert (Hup : 0 < q - inject_Z f -> (f + 1 <= b)%Z).
  { intros Hpos. assert (Hlt : inject_Z f < inject_Z b) by lra.
    rewrite <- Zlt_Qlt in Hlt. lia. }
  destruct (Qcompare (q - inject_Z f) (1 # 2)) eqn:Hc.
  - apply Qeq_alt in Hc. destruct (Z.even f); [lia|].
    apply Hup. rewrite Hc. reflexivity.
  - lia.
  - apply Qgt_alt in Hc. apply Hup.
    apply Qlt_trans with (1 # 2); [reflexivity | exact Hc].
Qed.

Lemma rnd_nonneg (q : Q) : 0 <= q -> 0 <= rnd q.
Proof.
  intros H. destruct (Qlt_le_dec 0 q) as [P|N].
  - rewrite (rnd_pos q P).
    pose proof (pow2_pos (ulp_exp q)) as Pe.
    apply Qmult_le_0_compat; [|lra].
    change 0 with (inject_Z 0). rewrite <- Zle_Qle.
    apply round_half_even_lower. change (inject_Z 0) with 0.
    apply Qle_shift_div_l; [exact Pe | rewrite Qmult_0_l; lra].
  - rewrite (rnd_zero q); [lra | lra].
Qed.

Lemma ulp_exp_small (q : Q) (b : Z) :
  0 < q -> q <= inject_Z b -> (b < 2 ^ 53)%Z -> (ulp_exp q <= 0)%Z.
Proof.
  intros P Hb Hlt. unfold ulp_exp.
  pose proof (flog2_lower q P) as L.
  assert (H : pow2 (flog2 q) < pow2 53).
  { rewrite (pow2_nonneg_exp 53) by lia.
    apply Qle_lt_trans with (inject_Z b); [lra|].
    rewrite <- Zlt_Qlt. exact Hlt. }
  apply pow2_lt_inv in H. lia.
Qed.

(** A bound that is a whole number below 2^53 is kept by the rounding. *)
Lemma rnd_le_int (q : Q) (b : Z) :
  0 <= q -> q <= inject_Z b -> (b < 2 ^ 53)%Z -> rnd q <= inject_Z b.
Proof.
  intros H Hb Hlt. destruct (Qlt_le_dec 0 q) as [P|N].
  - rewrite (rnd_pos q P).
    pose proof (ulp_exp_small q b P Hb Hlt) as He.
    set (e := ulp_exp q) in *.
    pose proof (pow2_pos e) as Pe. pose proof (pow2_inv e) as Pi.
    rewrite (pow2_nonneg_exp (- e)) in Pi by lia.
    set (N := (2 ^ (- e))%Z) in *.
    assert (U : (round_half_even (q / pow2 e) <= b * N)%Z).
    { apply round_half_even_upper. rewrite inject_Z_mult.
      apply Qle_shift_div_r; [exact Pe|].
      setoid_replace (inject_Z b * inject_Z N * pow2 e)
        with (inject_Z b * (pow2 e * inject_Z N)) by ring.
      rewrite Pi. lra. }
    rewrite Zle_Qle, inject_Z_mult in U.
    apply Qle_trans with (inject_Z b * inject_Z N * pow2 e).
    + apply Qmult_le_compat_r; [exact U | lra].
    + setoid_replace (inject_Z b * inject_Z N * pow2 e)
        with (inject_Z b * (pow2 e * inject_Z N)) by ring.
      rewrite Pi. lra.
  - rewrite (rnd_zero q) by lra. lra.
Qed.

(** The rounding error: half a unit in the last place. *)
Lemma ulp_exp_bound (q : Q) :
  0 < q -> pow2 (ulp_exp q) <= q * pow2 (-52) + pow2 (-1074).
Proof.
  intros P. unfold ulp_exp.
  pose proof (flog2_lower q P) as L.
  pose proof (pow2_pos (-52)) as P52. pose proof (pow2_pos (-1074)) as Pm.
  destruct (Z.max_spec (flog2 q - 52) (-1074)) as [[_ ->]|[_ ->]].
  - assert (0 <= q * pow2 (-52)) by (apply Qmult_le_0_compat; lra). lra.
  - replace (flog2 q - 52)%Z with (flog2 q + -52)%Z by lia.
    rewrite pow2_add.
    assert (pow2 (flog2 q) * pow2 (-52) <= q * pow2 (-52))
      by (apply Qmult_le_compat_r; lra).
    lra.
Qed.

Lemma rnd_error_pos (q : Q) :
  0 < q -> Qabs (rnd q - q) <= q * pow2 (-53) + pow2 (-1075).
Proof.
  intros P. rewrite (rnd_pos q P).
  pose proof (ulp_exp_bound q P) as B.
  set (e := ulp_exp q) in *. pose proof (pow2_pos e) as Pe.
  pose proof (round_half_even_close (q / pow2 e)) as C.
  set (m := inject_Z (round_half_even (q / pow2 e))) in *.
  assert (E : m * pow2 e - q == (m - q / pow2 e) * pow2 e)
    by (field; lra).
  rewrite E, Qabs_Qmult, (Qabs_pos (pow2 e)) by lra.
  apply Qle_trans with ((1 # 2) * pow2 e).
  - apply Qmult_le_compat_r; [exact C | lra].
  - assert (H53 : pow2 (-53) == (1 # 2) * pow2 (-52)).
    { replace (-53)%Z with (-1 + -52)%Z by lia. rewrite pow2_add. reflexivity. }
    assert (H75 : pow2 (-1075) == (1 # 2) * pow2 (-1074)).
    { replace (-1075)%Z with (-1 + -1074)%Z by lia. rewrite pow2_add.
      reflexivity. }
    rewrite H53, H75. lra.
Qed.

Lemma rnd_error (q : Q) :
  Qabs (rnd q - q) <= Qabs q * pow2 (-53) + pow2 (-1075).
Proof.
  pose proof (pow2_pos (-1075)) as Pm.
  destruct (Q_dec 0 q) as [[P|N]|Z0].
  - rewrite (Qabs_pos q) by lra. now apply rnd_error_pos.
  - assert (P : 0 < - q) by lra.
    pose proof (rnd_error_pos (- q) P) as H. rewrite rnd_opp in H.
    rewrite (Qabs_neg q) by lra.
    setoid_replace (rnd q - q) with (- (- rnd q - - q)) by ring.
    now rewrite Qabs_opp.
  - rewrite (rnd_zero q) by (symmetry; exact Z0).
    assert (A : Qabs (0 - q) == 0) by (rewrite <- Z0; reflexivity).
    assert (B : Qabs q == 0) by (rewrite <- Z0; reflexivity).
    rewrite A, B, Qmult_0_l. lra.
Qed.

(** Fixed points of the rounding used below. *)
Lemma rnd_between (q : Q) (b : Z) :
  0 <= q -> q <= inject_Z b -> (b < 2 ^ 53)%Z ->
  0 <= rnd q /\ rnd q <= inject_Z b.
Proof.
  intros H0 Hb Hlt. split; [now apply rnd_nonneg | now apply rnd_le_int].
Qed.

(** [round(x, 2)] of a double between 0 and a whole number [b] is between
    0 and [b]. *)
Lemma round2_between (x : Q) (b : Z) :
  0 <= x -> x <= inject_Z b -> (b < 2 ^ 53)%Z ->
  0 <= round2 x /\ round2 x <= inject_Z b.
Proof.
  intros H0 Hb Hlt. unfold round2.
  assert (L : (0 <= round_half_even (x * 100))%Z).
  { apply round_half_even_lower. change (inject_Z 0) with 0.
    apply Qmult_le_0_compat; [exact H0 | discriminate]. }
  assert (U : (round_half_even (x * 100) <= b * 100)%Z).
  { apply round_half_even_upper. rewrite inject_Z_mult.
    apply Qmult_le_compat_r; [exact Hb | discriminate]. }
  set (n := round_half_even (x * 100)) in *.
  apply rnd_between; [| |exact Hlt].
  - apply Qle_shift_div_l; [reflexivity|]. rewrite Qmult_0_l.
    change 0 with (inject_Z 0). now rewrite <- Zle_Qle.
  - apply Qle_shift_div_r; [reflexivity|].
    change 100 with (inject_Z 100). rewrite <- inject_Z_mult, <- Zle_Qle.
    exact U.
Qed.

(** [round(x, 2)] is the double nearest to a whole number of hundredths,
    which is within half a hundredth of [x]. *)
Lemma round2_hundredths (x : Q) :
  exists n : Z,
    Qabs (inject_Z n / 100 - x) <= 1 # 200 /\
    Qabs (round2 x - inject_Z n / 100)
    <= Qabs (inject_Z n / 100) * pow2 (-53) + pow2 (-1075).
Proof.
  exists (round_half_even (x * 100)). split.
  - pose proof (round_half_even_close (x * 100)) as H.
    set (n := round_half_even (x * 100)) in *.
    assert (E : inject_Z n / 100 - x == (inject_Z n - x * 100) * (1 # 100))
      by field.
    rewrite E, Qabs_Qmult. change (Qabs (1 # 100)) with (1 # 100).
    apply Qle_trans with ((1 # 2) * (1 # 100)).
    + apply Qmult_le_compat_r; [exact H | discriminate].
    + discriminate.
  - apply rnd_error.
Qed.

(** A share of a whole in percent, computed on doubles: [g / d * 100.0]
    lies between 0 and 100 and next to the exact percentage. *)
Lemma percent_close (g d : Z) :
  (0 <= g <= d)%Z -> (0 < d)%Z ->
  let x := fmul (fdiv (inject_Z g) (inject_Z d)) 100 in
  0 <= x /\ x <= 100 /\
  Qabs (x - inject_Z g / inject_Z d * 100) <= 1 # 10000000000000.
Proof.
  intros Hg Hd x. unfold x, fmul, fdiv.
  set (q := inject_Z g / inject_Z d).
  assert (Pd : 0 < inject_Z d)
    by (change 0 with (inject_Z 0); rewrite <- Zlt_Qlt; exact Hd).
  assert (Q0 : 0 <= q).
  { unfold q. apply Qle_shift_div_l; [exact Pd|]. rewrite Qmult_0_l.
    change 0 with (inject_Z 0). rewrite <- Zle_Qle. lia. }
  assert (Q1 : q <= 1).
  { unfold q. apply Qle_shift_div_r; [exact Pd|]. rewrite Qmult_1_l.
    rewrite <- Zle_Qle. lia. }
  destruct (rnd_between q 1 Q0 Q1 eq_refl) as [A0 A1].
  change (inject_Z 1) with 1 in A1.
  pose proof (rnd_error q) as E1. rewrite (Qabs_pos q Q0) in E1.
  set (x1 := rnd q) in *.
  assert (B0 : 0 <= x1 * 100) by lra.
  assert (B1 : x1 * 100 <= inject_Z 100)
    by (change (inject_Z 100) with 100; lra).
  destruct (rnd_between (x1 * 100) 100 B0 B1 eq_refl) as [C0 C1].
  change (inject_Z 100) with 100 in C1.
  pose proof (rnd_error (x1 * 100)) as E2.
  rewrite (Qabs_pos (x1 * 100) B0) in E2.
  set (x2 := rnd (x1 * 100)) in *.
  split; [exact C0|]. split; [exact C1|].
  assert (V53 : pow2 (-53) == 1 # 2 ^ 53) by reflexivity.
  assert (V75 : pow2 (-1075) == 1 # 2 ^ 1075) by reflexivity.
  set (u := pow2 (-53)) in *. set (w := pow2 (-1075)) in *.
  assert (P53 : 0 < u) by (rewrite V53; reflexivity).
  assert (U : u <= 1 # 9000000000000000)
    by (rewrite V53; vm_compute; discriminate).
  assert (W : w <= 1 # 9000000000000000)
    by (rewrite V75; vm_compute; discriminate).
  clear V53 V75.
  assert (M1 : q * u <= 1 * u) by (apply Qmult_le_compat_r; lra).
  assert (M2 : x1 * 100 * u <= 100 * u) by (apply Qmult_le_compat_r; lra).
  apply Qabs_Qle_condition in E1, E2. apply Qabs_Qle_condition.
  lra.
Qed.

(** The same percentage after [round(_, 2)]: the double of a whole number
    of hundredths, which is within half a hundredth of the exact
    percentage, up to the error of the doubles. *)
Lemma percent_round2_close (g d : Z) :
  (0 <= g <= d)%Z -> (0 < d)%Z ->
  exists n : Z,
    Qabs (inject_Z n / 100 - inject_Z g / inject_Z d * 100)
    <= (1 # 200) + (1 # 1000000000000) /\
    Qabs (round2 (fmul (fdiv (inject_Z g) (inject_Z d)) 100)
          - inject_Z n / 100) <= 1 # 1000000000000.
Proof.
  intros Hg Hd.
  destruct (percent_close g d Hg Hd) as [X0 [X1 Xc]].
  set (x := fmul (fdiv (inject_Z g) (inject_Z d)) 100) in *.
  destruct (round2_hundredths x) as [n [Hn Hr]].
  exists n. set (h := inject_Z n / 100) in *.
  apply Qabs_Qle_condition in Hn, Xc.
  assert (H0 : 0 <= Qabs h) by apply Qabs_nonneg.
  assert (H1 : Qabs h <= 101) by (apply Qabs_Qle_condition; lra).
  assert (V53 : pow2 (-53) == 1 # 2 ^ 53) by reflexivity.
  assert (V75 : pow2 (-1075) == 1 # 2 ^ 1075) by reflexivity.
  set (u := pow2 (-53)) in *. set (w := pow2 (-1075)) in *.
  assert (P53 : 0 < u) by (rewrite V53; reflexivity).
  assert (U : u <= 1 # 9000000000000000)
    by (rewrite V53; vm_compute; discriminate).
  assert (W : w <= 1 # 9000000000000000)
    by (rewrite V75; vm_compute; discriminate).
  clear V53 V75.
  assert (M : Qabs h * u <= 101 * u) by (apply Qmult_le_compat_r; lra).
  split.
  - apply Qabs_Qle_condition. lra.
  - eapply Qle_trans; [exact Hr|]. lra.
Qed.

End Binary64.

(** ** Sorting, medians and distinct values *)

Lemma insert_sorted_perm (x : Z) (l : list Z) :
  Permutation (x :: l) (insert_sorted x l).
Proof.
  induction l as [|y l IH]; simpl; [reflexivity|].
  destruct (x <=? y); [reflexivity|].
  rewrite perm_swap. now constructor.
Qed.

Lemma sort_perm (l : list Z) : Permutation l (sort l).
Proof.
  induction l as [|x l IH]; simpl; [constructor|].
  rewrite <- insert_sorted_perm. now constructor.
Qed.

Lemma insert_sorted_hd (x a : Z) (l : list Z) :
  a <= x -> HdRel Z.le a l -> HdRel Z.le a (insert_sorted x l).
Proof.
  intros Hax Hl. destruct l as [|y l]; simpl.
  - now constructor.
  - destruct (x <=? y); constructor; [assumption|].
    now inversion Hl.
Qed.

Lemma insert_sorted_sorted (x : Z) (l : list Z) :
  Sorted Z.le l -> Sorted Z.le (insert_sorted x l).
Proof.
  induction 1 as [|y l Hs IH Hhd]; simpl.
  - repeat constructor.
  - destruct (Z.leb_spec x y).
    + repeat constructor; assumption.
    + constructor; [assumption|].
      apply insert_sorted_hd; [lia | assumption].
Qed.

Lemma sort_sorted (l : list Z) : Sorted Z.le (sort l).
Proof.
  induction l as [|x l IH]; simpl; [constructor|].
  now apply insert_sorted_sorted.
Qed.

(** The median of a series that is not empty is the middle of a sorted
    arrangement of it. *)
Lemma median_middle (l : list Z) :
  l <> [] ->
  exists s, Permutation l s /\ Sorted Z.le s /\ median l = Some (middle s).
Proof.
  intros Hl. exists (sort l).
  split; [apply sort_perm|]. split; [apply sort_sorted|].
  destruct l; [contradiction | reflexivity].
Qed.











Lemma count_true_map {A : Type} (p : A -> bool) (l : list A) :
  count_true (map p l) = Z.of_nat (List.length (filter p l)).
Proof.
  unfold count_true. f_equal.
  induction l as [|x l IH]; simpl; [reflexivity|].
  destruct (p x); simpl; now rewrite IH.
Qed.

Lemma plausible_filter (d : list (option Z)) :
  map Some (plausible d) = filter in_range d.
Proof.
  induction d as [|[x|] d IH]; simpl; try assumption; [reflexivity|].
  destruct ((0 <=? x) && (x <? 365)); simpl; now rewrite IH.
Qed.

(** The subtraction of two date columns of the same kind. *)
Lemma timedelta_days (te ts : option Z) :
  row_overflows (te, ts) = false ->
  timedelta te ts = Returns
    (match te, ts with
     | Some a, Some b =>
         if a - b =? - 9223372036854775808 then None else Some (a - b)
     | _, _ => None
     end) /\
  days (match te, ts with
        | Some a, Some b =>
            if a - b =? - 9223372036854775808 then None else Some (a - b)
        | _, _ => None
        end) = row_days (te, ts).
Proof.
  destruct te as [a|], ts as [b|]; simpl; try (split; reflexivity).
  change (2 ^ 63) with 9223372036854775808.
  change (9223372036854775808 - 1) with 9223372036854775807.
  intros ->. split; now destruct (a - b =? - 9223372036854775808).
Qed.

Lemma timedeltas_days (e s : list (option Z)) :
  forallb (fun p => negb (row_overflows p)) (combine e s) = true ->
  (d <- timedeltas e s ;; Returns (map days d))
  = Returns (map row_days (combine e s)).
Proof.
  revert s. induction e as [|x e IH]; intros [|y s];
    cbn [combine forallb map]; try reflexivity.
  intros H. apply andb_true_iff in H as [Hx H].
  apply negb_true_iff in Hx.
  cbn [timedeltas].
  destruct (timedelta_days x y Hx) as [-> Hd]. cbn [bind].
  specialize (IH s H).
  destruct (timedeltas e s) as [ds|ex]; cbn [bind map] in *; [|discriminate].
  injection IH as IH. now rewrite Hd, IH.
Qed.

Lemma timedeltas_overflow (e s : list (option Z)) :
  existsb row_overflows (combine e s) = true ->
  timedeltas e s = Raises OverflowError.
Proof.
  revert s. induction e as [|x e IH]; intros [|y s];
    cbn [combine existsb]; try discriminate.
  destruct (row_overflows (x, y)) eqn:Hx; cbn [orb].
  - intros _. destruct x as [a|], y as [b|]; simpl in Hx; try discriminate.
    simpl. change (2 ^ 63) with 9223372036854775808.
    change (9223372036854775808 - 1) with 9223372036854775807.
    now rewrite Hx.
  - intros H. cbn [timedeltas]. rewrite (IH s H).
    destruct (timedelta_days x y Hx) as [-> _]. reflexivity.
Qed.

Lemma timedeltas_length (e s d : list (option Z)) :
  timedeltas e s = Returns d -> (List.length d <= List.length e)%nat.
Proof.
  revert s d. induction e as [|x e IH]; intros [|y s] d; simpl;
    try (intros [= <-]; simpl; lia).
  destruct (timedelta x y); simpl; [|discriminate].
  destruct (timedeltas e s) as [ds|] eqn:E; simpl; [|discriminate].
  intros [= <-]. simpl. specialize (IH s ds E). lia.
Qed.

(** The coercions keep one entry per cell; on a column of numbers, on a
    column of time stamps without time zone and on one of time stamps in
    UTC they have no choice. *)
Lemma to_numeric_length `{ValueCoercer} (l : list cell) :
  List.length (to_numeric l) = List.length l.
Proof. symmetry. exact (Forall2_length (to_numeric_cells l)). Qed.

Lemma to_datetime_length `{ValueCoercer} (l : list cell)
  (ds : DatetimeSeries) :
  to_datetime l = Returns ds -> List.length (stamps ds) = List.length l.
Proof. intros E. symmetry. exact (Forall2_length (to_datetime_cells l ds E)). Qed.

Lemma to_numeric_numbers `{ValueCoercer} (l : list cell) :
  forallb number_or_nan l = true -> to_numeric l = map number l.
Proof.
  intros Hl. pose proof (to_numeric_cells l) as H2.
  induction H2 as [|c o l os Hc _ IH]; [reflexivity|].
  simpl in Hl. apply andb_true_iff in Hl as [Hd Hl].
  simpl. rewrite (IH Hl). f_equal.
  destruct c as [s|z|q|t|t|[| |]]; simpl in *; try discriminate; assumption.
Qed.

Lemma datetime_of_stamps (l : list cell) (os : list (option Z)) :
  Forall2 datetime_of l os ->
  forallb (fun c => naive_cell c || utc_cell c) l = true ->
  os = map stamp_value l.
Proof.
  induction 1 as [|c o l os Hc _ IH]; [reflexivity|].
  simpl. intros Hl. apply andb_true_iff in Hl as [Hd Hl].
  rewrite (IH Hl). f_equal.
  destruct c as [s|z|q|t|t|m]; simpl in *; try discriminate.
  - apply Hc. now rewrite orb_false_r in Hd.
  - now apply Hc.
  - exact Hc.
Qed.

Lemma to_datetime_naive_stamps `{ValueCoercer} (l : list cell) :
  naive_column l = true ->
  to_datetime l = Returns (mkDatetimeSeries Naive (map stamp_value l)).
Proof.
  intros Hl. destruct (to_datetime_naive l Hl) as [[k os] [E Hk]].
  simpl in Hk. subst k. rewrite E. do 2 f_equal.
  apply (datetime_of_stamps l os (to_datetime_cells l _ E)).
  unfold naive_column in Hl. rewrite forallb_forall in *.
  intros c Hc. now rewrite (Hl c Hc).
Qed.

Lemma to_datetime_utc_stamps `{ValueCoercer} (l : list cell) :
  utc_column l = true ->
  to_datetime l = Returns (mkDatetimeSeries Aware (map stamp_value l)).
Proof.
  intros Hl. destruct (to_datetime_utc l Hl) as [[k os] [E Hk]].
  simpl in Hk. subst k. rewrite E. do 2 f_equal.
  apply (datetime_of_stamps l os (to_datetime_cells l _ E)).
  unfold utc_column in Hl. apply andb_true_iff in Hl as [Hl _].
  rewrite forallb_forall in *.
  intros c Hc. rewrite (Hl c Hc). apply orb_true_r.
Qed.
(** ** The client filter *)

Section ClientFilter.

Context {VC : ValueCoercer} {RE : RegexEngine}.

Lemma is_client_truthy (c : string) : is_client c = true -> Py.truthy c = true.
Proof. apply has_key_truthy. reflexivity. Qed.

Lemma apply_client_filter_eq (df : DataFrame) (s : string) :
  _apply_client_filter df s =
  if Py.truthy s then
    match find is_client (columns df) with
    | Some c =>
        if re_compiles s then
          Returns (mkDataFrame (columns df)
                     (select (map (re_search s) (map astype_str (getitem df c)))
                             (rows df)))
        else Raises ReError
    | None => Returns df
    end
  else Returns df.
Proof.
  unfold _apply_client_filter, str_contains. fold is_client.
  destruct (Py.truthy s); simpl; [|reflexivity].
  destruct (find is_client (columns df)) as [c|] eqn:Hf; [|reflexivity].
  apply find_some in Hf as [_ Hc]. rewrite (is_client_truthy _ Hc).
  now destruct (re_compiles s).
Qed.

(** The empty substring and the sheet without a client column: the filter
    hands the frame back. *)
Lemma apply_client_filter_empty (df : DataFrame) :
  _apply_client_filter df "" = Returns df.
Proof. reflexivity. Qed.

Lemma apply_client_filter_no_column (df : DataFrame) (s : string) :
  no_match is_client (columns df) -> _apply_client_filter df s = Returns df.
Proof.
  intros H. apply find_no_match in H. rewrite apply_client_filter_eq, H.
  now destruct (Py.truthy s).
Qed.

(** With a client column at position [j] and a pattern that compiles, the
    filter keeps the rows whose client cell, as text, the pattern finds. *)
Lemma apply_client_filter_rows (df : DataFrame) (s c : string) (j : nat) :
  Py.truthy s = true ->
  first_match is_client (columns df) c ->
  position c (columns df) = Some j ->
  re_compiles s = true ->
  _apply_client_filter df s =
  Returns (mkDataFrame (columns df) (rows_where (re_search s) j df)).
Proof.
  intros Hs Hc Hj Hre. apply find_first_match in Hc.
  rewrite apply_client_filter_eq, Hs, Hc, Hre.
  unfold getitem. rewrite Hj, !map_map, select_map. reflexivity.
Qed.

(** For a substring without metacharacters the rows kept are those whose
    client cell, as text, contains the substring up to case. *)
Lemma apply_client_filter_literal (df : DataFrame) (s c : string) (j : nat) :
  Py.truthy s = true -> is_literal s = true ->
  first_match is_client (columns df) c ->
  position c (columns df) = Some j ->
  _apply_client_filter df s =
  Returns (mkDataFrame (columns df)
             (rows_where (fun t => Py.contains (Py.lower s) (Py.lower t))
                         j df)).
Proof.
  intros Hs Hl Hc Hj.
  rewrite (apply_client_filter_rows df s c j Hs Hc Hj)
    by apply (re_literal s "" Hl).
  unfold rows_where. do 2 f_equal. apply filter_ext.
  intros r. apply (re_literal s _ Hl).
Qed.

Lemma apply_client_filter_total (df : DataFrame) (s : string) :
  pattern_ok s = true -> exists df2, _apply_client_filter df s = Returns df2.
Proof.
  unfold pattern_ok. rewrite apply_client_filter_eq.
  destruct (Py.truthy s); simpl; [intros ->|]; eauto.
  destruct (find _ _) as [c|]; eauto.
Qed.

Lemma apply_client_filter_columns (df df2 : DataFrame) (s : string) :
  _apply_client_filter df s = Returns df2 -> columns df2 = columns df.
Proof.
  rewrite apply_client_filter_eq.
  destruct (Py.truthy s); [|now intros [= ->]].
  destruct (find _ _) as [c|]; [|now intros [= ->]].
  destruct (re_compiles s); simpl; [now intros [= <-] | discriminate].
Qed.

End ClientFilter.

(** ** Properties of the client filter *)

Section ClientFilterProperties.

Context {VC : ValueCoercer} {RE : RegexEngine}.

(** C9.  The client filter is idempotent: when it returns a frame for a
    table and a substring, applying it again to that frame with the same
    substring returns the very same frame, hence the same rows. *)
Theorem apply_client_filter_idempotent (df df1 : DataFrame) (s : string) :
  _apply_client_filter df s = Returns df1 ->
  _apply_client_filter df1 s = Returns df1.
Proof.
  intros H. pose proof (apply_client_filter_columns _ _ _ H) as Hcols.
  rewrite apply_client_filter_eq in *. rewrite Hcols.
  destruct (Py.truthy s); [|reflexivity].
  destruct (find is_client (columns df)) as [c|]; [|reflexivity].
  destruct (re_compiles s); [|discriminate].
  injection H as <-. simpl. do 2 f_equal.
  unfold getitem; simpl.
  destruct (position c (columns df)) as [j|]; simpl.
  - rewrite !map_map, select_map.
    rewrite select_map. apply filter_twice.
  - reflexivity.
Qed.

(** C1, on two inputs where the filter departs from it.  With the
    substring "nan", the only row kept is the one whose client cell is
    missing: [astype(str)] has turned [NaN] into the text "nan" before the
    search, so that [na=False] has nothing left to exclude.  With the
    substring ".", which [Series.str.contains] reads as the pattern for any
    character, the row of "Acme" is kept although "Acme" has no dot. *)
Theorem apply_client_filter_keeps_missing_cell :
  _apply_client_filter
    (mkDataFrame ["Cliente"] [[CText "Acme"]; [CMissing NaN]]) "nan"
  = Returns (mkDataFrame ["Cliente"] [[CMissing NaN]])
  /\
  _apply_client_filter (mkDataFrame ["Cliente"] [[CText "Acme"]]) "."
  = Returns (mkDataFrame ["Cliente"] [[CText "Acme"]])
  /\ Py.contains (Py.lower ".") (Py.lower "Acme") = false.
Proof.
  repeat split.
  - destruct (re_literal "nan" "" eq_refl) as [Hc _].
    rewrite apply_client_filter_eq. simpl. rewrite Hc. simpl.
    rewrite !(proj2 (re_literal "nan" _ eq_refl)). reflexivity.
  - destruct re_dot as [Hc Hs].
    rewrite apply_client_filter_eq. simpl. rewrite Hc. simpl.
    rewrite Hs. reflexivity.
Qed.

End ClientFilterProperties.

(** ** The aggregator *)

Lemma last_some_defined {A : Type} (f : DataFrame -> option A)
  (dfs : list DataFrame) :
  last_defined f dfs (last_some (map f dfs)).
Proof.
  induction dfs as [|d dfs IH]; simpl; [constructor|].
  destruct (last_some (map f dfs)) as [v|]; simpl in *.
  - destruct IH as [pre [df [post [-> [Hv Hpost]]]]].
    now exists (d :: pre), df, post.
  - destruct (f d) as [v|] eqn:Hd; simpl.
    + now exists [], d, dfs.
    + now constructor.
Qed.

Lemma last_some_returned {A : Type} (f : DataFrame -> outcome (option A))
  (dfs : list DataFrame) (os : list (option A)) :
  Forall2 (fun d o => f d = Returns o) dfs os ->
  last_returned f dfs (last_some os).
Proof.
  induction 1 as [|d o dfs os Hd _ IH]; simpl; [constructor|].
  destruct (last_some os) as [v|]; simpl in *.
  - destruct IH as [pre [df [post [-> [Hv Hpost]]]]].
    now exists (d :: pre), df, post.
  - destruct o as [v|]; simpl.
    + now exists [], d, dfs.
    + now constructor.
Qed.

Section Aggregator.

Context {VC : ValueCoercer} {RE : RegexEngine}.

(** The sheets after the client filter, what [_lead_time_days] returned
    on each, and the local variables once the loop has gone through
    them. *)
Lemma for_each_loop_body (s : string) (data : list (string * option DataFrame))
  (st st' : Locals) :
  for_each (loop_body s) data st = Returns st' ->
  exists dfs lts,
    filter_all s (kept_sheets data) = Returns dfs /\
    Forall2 (fun d o => _lead_time_days d = Returns o) dfs lts /\
    conversion st' =
      match last_some (map conversion_estimate dfs) with
      | Some v => Some v
      | None => conversion st
      end /\
    lead_time st' =
      match last_some lts with
      | Some v => Some v
      | None => lead_time st
      end.
Proof.
  revert st. induction data as [|[hoja [df|]] data IH]; intros st; simpl.
  - intros [= <-]. exists [], []. repeat split; constructor.
  - destruct (empty df); simpl; [apply IH|].
    destruct (_apply_client_filter df s) as [df2|e]; simpl; [|discriminate].
    destruct (_lead_time_days df2) as [lt|e] eqn:El; simpl; [|discriminate].
    intros H. destruct (IH _ H) as [dfs [lts [-> [Hr [Hc Hl]]]]].
    simpl in Hc, Hl.
    exists (df2 :: dfs), (lt :: lts). simpl.
    split; [reflexivity|]. split; [now constructor|].
    rewrite Hc, Hl.
    destruct (last_some (map conversion_estimate dfs)), (last_some lts);
      auto.
  - apply IH.
Qed.

(** The loop reaches its end exactly when the client filter returns on
    every sheet it processes and [_lead_time_days] returns on every
    filtered sheet. *)
Lemma for_each_loop_body_returns (s : string)
  (data : list (string * option DataFrame)) (st : Locals) :
  (exists st', for_each (loop_body s) data st = Returns st') <->
  exists dfs,
    filter_all s (kept_sheets data) = Returns dfs /\
    Forall (fun d => exists o, _lead_time_days d = Returns o) dfs.
Proof.
  split.
  - intros [st' H]. apply for_each_loop_body in H as [dfs [lts [Hf [Hr _]]]].
    exists dfs. split; [exact Hf|].
    clear Hf. induction Hr; constructor; eauto.
  - revert st. induction data as [|[hoja [df|]] data IH]; intros st; simpl.
    + eauto.
    + destruct (empty df); simpl; [apply IH|].
      intros [dfs [Hf Hr]].
      destruct (_apply_client_filter df s) as [df2|e]; simpl in *;
        [|discriminate].
      destruct (filter_all s (kept_sheets data)) as [dfs'|e] eqn:E;
        simpl in Hf; [|discriminate].
      injection Hf as <-. inversion Hr as [|? ? [o Ho] Hr']; subst.
      rewrite Ho. simpl. apply IH. eauto.
    + apply IH.
Qed.

Lemma analizar_datos_taller_returns (data : list (string * option DataFrame))
  (s : string) :
  (exists r, analizar_datos_taller data s = Returns r) <->
  exists dfs,
    filter_all s (kept_sheets data) = Returns dfs /\
    Forall (fun d => exists o, _lead_time_days d = Returns o) dfs.
Proof.
  rewrite <- (for_each_loop_body_returns s data initial).
  unfold analizar_datos_taller. split.
  - intros [r H]. destruct (for_each _ _ _) as [st|e]; [eauto|discriminate].
  - intros [st ->]. simpl. eauto.
Qed.

Lemma literal_pattern_ok (s : string) :
  is_literal s = true -> pattern_ok s = true.
Proof.
  intros H. unfold pattern_ok. rewrite (proj1 (re_literal s "" H)).
  apply orb_true_r.
Qed.

(** With a pattern that cannot raise, the client filter returns on every
    sheet. *)
Lemma filter_all_total (s : string) (dfs : list DataFrame) :
  pattern_ok s = true -> exists dfs', filter_all s dfs = Returns dfs'.
Proof.
  intros Hs. induction dfs as [|d dfs [dfs' IH]]; simpl; [eauto|].
  destruct (apply_client_filter_total d s Hs) as [d2 ->]. simpl.
  rewrite IH. simpl. eauto.
Qed.

Lemma analizar_datos_taller_compose (data : list (string * option DataFrame))
  (s : string) (r : Report) :
  analizar_datos_taller data s = Returns r ->
  exists st, for_each (loop_body s) data initial = Returns st /\
             r = compose st.
Proof.
  unfold analizar_datos_taller.
  destruct (for_each _ _ _) as [st|e]; simpl; [|discriminate].
  intros [= <-]. now exists st.
Qed.

(** C2.  In every report the aggregator returns, the field [margen] is
    the field [ingresos] minus the field [costos]. *)
Theorem report_margen (data : list (string * option DataFrame)) (s : string)
  (r : Report) :
  analizar_datos_taller data s = Returns r ->
  margen r = (ingresos r - costos r)%Q.
Proof.
  intros H. apply analizar_datos_taller_compose in H as [st [_ ->]].
  reflexivity.
Qed.


(** The local variables after the loop on the two samples, and the
    percentage they give. *)
Lemma sample_tie_locals :
  exists st, for_each (loop_body "") sample_tie initial = Returns st /\
             (Qabs (margen_pct (compose st) - (267 # 100)) <= 1 # 10 ^ 12)%Q.
Proof.
  unfold sample_tie. cbn.
  rewrite !to_numeric_numbers by reflexivity. cbn.
  rewrite !to_numeric_numbers by reflexivity. cbn.
  eexists. split; [reflexivity|]. vm_compute. discriminate.
Qed.

Lemma sample_thirds_locals :
  exists st, for_each (loop_body "") sample_thirds initial = Returns st /\
             (Qabs (margen_pct (compose st) - (6667 # 100)) <= 1 # 10 ^ 12)%Q.
Proof.
  unfold sample_thirds. cbn.
  rewrite !to_numeric_numbers by reflexivity. cbn.
  rewrite !to_numeric_numbers by reflexivity. cbn.
  eexists. split; [reflexivity|]. vm_compute. discriminate.
Qed.

Lemma sample_half_locals :
  exists st, for_each (loop_body "") sample_half initial = Returns st /\
             (Qabs (margen_pct (compose st) - (312 # 100)) <= 1 # 10 ^ 12)%Q.
Proof.
  unfold sample_half. cbn.
  rewrite !to_numeric_numbers by reflexivity. cbn.
  rewrite !to_numeric_numbers by reflexivity. cbn.
  eexists. split; [reflexivity|]. vm_compute. discriminate.
Qed.

(** C10.  When the revenue total is not zero, [margen_pct] is not the
    exact ratio but [round(margen / ingresos * 100.0, 2)], computed on
    doubles: the double nearest to a whole number of hundredths that is
    within half a hundredth of the product the floating point division and
    multiplication give.  With sales of 40000 and costs of 38930 it is
    2.67, where the exact 2.675 would round to 2.68; with sales of 32 and
    costs of 31 it is 3.12, the even one of the two neighbours of 3.125;
    with sales of 3 and costs of 1 it is 66.67. *)
Theorem report_margen_pct_rounded
  (data : list (string * option DataFrame)) (s : string) (r : Report) :
  analizar_datos_taller data s = Returns r ->
  ~ (ingresos r == 0)%Q ->
  margen_pct r
  = Py.round2 (Py.fmul (Py.fdiv (margen r) (ingresos r)) 100) /\
  (exists n : Z,
     (Qabs (inject_Z n / 100
            - Py.fmul (Py.fdiv (margen r) (ingresos r)) 100) <= 1 # 200)%Q /\
     (Qabs (margen_pct r - inject_Z n / 100)
      <= Qabs (inject_Z n / 100) * (1 # 2 ^ 53) + (1 # 2 ^ 1075))%Q) /\
  (exists r1, analizar_datos_taller sample_tie "" = Returns r1 /\
              (Qabs (margen_pct r1 - (267 # 100)) <= 1 # 10 ^ 12)%Q) /\
  (exists r2, analizar_datos_taller sample_thirds "" = Returns r2 /\
              (Qabs (margen_pct r2 - (6667 # 100)) <= 1 # 10 ^ 12)%Q) /\
  (exists r3, analizar_datos_taller sample_half "" = Returns r3 /\
              (Qabs (margen_pct r3 - (312 # 100)) <= 1 # 10 ^ 12)%Q).
Proof.
  intros H H0. split; [|split; [|split; [|split]]].
  - apply analizar_datos_taller_compose in H as [st [_ ->]].
    simpl in *. unfold nonzero.
    destruct (Qeq_bool (total_ing st) 0) eqn:E; [|reflexivity].
    apply Qeq_bool_iff in E. contradiction.
  - apply analizar_datos_taller_compose in H as [st [_ ->]].
    simpl in *. unfold nonzero.
    destruct (Qeq_bool (total_ing st) 0) eqn:E.
    + apply Qeq_bool_iff in E. contradiction.
    + simpl.
      destruct (round2_hundredths
                  (Py.fmul (Py.fdiv (total_ing st - total_cost st)
                                    (total_ing st)) 100))
        as [n [Hn Hr]].
      exists n. split; [exact Hn | exact Hr].
  - destruct sample_tie_locals as [st [E B]]. exists (compose st).
    unfold analizar_datos_taller. rewrite E. split; [reflexivity | exact B].
  - destruct sample_thirds_locals as [st [E B]]. exists (compose st).
    unfold analizar_datos_taller. rewrite E. split; [reflexivity | exact B].
  - destruct sample_half_locals as [st [E B]]. exists (compose st).
    unfold analizar_datos_taller. rewrite E. split; [reflexivity | exact B].
Qed.

(** C7.  The report's [conversion_pct] and [lead_time_mediano_dias] are
    the values of the last sheet, in iteration order, whose filtered table
    gave one; there is none when no sheet gave one.  Nothing is averaged,
    and a sheet that gives no value leaves the earlier one in place. *)
Theorem report_last_defined_wins
  (data : list (string * option DataFrame)) (s : string) (r : Report) :
  analizar_datos_taller data s = Returns r ->
  exists dfs,
    filter_all s (kept_sheets data) = Returns dfs /\
    last_defined conversion_estimate dfs (conversion_pct r) /\
    last_returned _lead_time_days dfs (lead_time_mediano_dias r).
Proof.
  intros H. apply analizar_datos_taller_compose in H as [st [H ->]].
  apply for_each_loop_body in H as [dfs [lts [Hf [Hr [Hc Hl]]]]].
  exists dfs. split; [exact Hf|]. simpl in *.
  pose proof (last_some_defined conversion_estimate dfs) as Pc.
  pose proof (last_some_returned _lead_time_days dfs lts Hr) as Pl.
  rewrite Hc, Hl.
  destruct (last_some (map conversion_estimate dfs)), (last_some lts); auto.
Qed.

(** C8, on an input that makes the aggregator raise: one sheet with a
    client column and the client substring [(], which [Series.str.contains]
    hands to [re.compile]. *)
Theorem analizar_datos_taller_raises :
  analizar_datos_taller
    [("Hoja1", Some (mkDataFrame ["Cliente"] [[CText "Acme"]]))] "("
  = Raises ReError.
Proof.
  unfold analizar_datos_taller. simpl.
  rewrite apply_client_filter_eq. simpl. rewrite re_open_group. reflexivity.
Qed.

End Aggregator.

(** ** The estimators *)

Lemma middle_is_median (l : list Z) : l <> [] -> is_median l (middle l).
Proof.
  intros Hl. unfold is_median, middle.
  assert (Hn : (0 < List.length l)%nat)
    by (destruct l; [contradiction | simpl; lia]).
  set (n := List.length l) in *.
  destruct (Nat.even n) eqn:E.
  - apply Nat.even_spec in E as [k Hk]. exists (k - 1)%nat. right.
    assert (K : (0 < k)%nat) by lia.
    replace (n / 2)%nat with k
      by (rewrite Hk, Nat.mul_comm, Nat.div_mul; lia).
    split; [lia|]. rewrite Qred_correct.
    replace (k - 1 + 1)%nat with k by lia. reflexivity.
  - assert (O : Nat.odd n = true)
      by (rewrite <- Nat.negb_even, E; reflexivity).
    apply Nat.odd_spec in O as [k Hk]. exists k. left.
    split; [lia|]. f_equal. f_equal.
    rewrite Hk, Nat.mul_comm, Nat.div_add_l by lia. simpl. lia.
Qed.

Section Estimators.

Context {VC : ValueCoercer} {RE : RegexEngine}.

Lemma first_match_position (f : string -> bool) (df : DataFrame)
  (c : string) :
  first_match f (columns df) c ->
  exists j, position c (columns df) = Some j /\
            nth_error (columns df) j = Some c /\
            getitem df c = map (cell_at j) (rows df).
Proof.
  intros H. apply first_match_in in H.
  destruct (position_first _ _ H) as [j [Hj Hn]].
  exists j. unfold getitem. now rewrite Hj.
Qed.

Lemma first_match_length (f : string -> bool) (df : DataFrame) (c : string) :
  first_match f (columns df) c -> List.length (getitem df c) = len df.
Proof.
  intros H. destruct (first_match_position _ _ _ H) as [j [_ [_ ->]]].
  apply length_map.
Qed.

(** [_lead_time_days] once both date columns are found. *)
Lemma lead_time_days_eq (df : DataFrame) (sc ec : string) :
  first_match is_start (columns df) sc ->
  first_match is_end (columns df) ec ->
  _lead_time_days df =
  (s <- to_datetime (getitem df sc) ;;
   e <- to_datetime (getitem df ec) ;;
   d <- sub_days e s ;;
   Returns (if (3 <=? List.length (plausible d))%nat
            then median (plausible d) else None)).
Proof.
  intros Hs He.
  assert (Ts : Py.truthy sc = true).
  { destruct Hs as [_ [_ [_ [Hs _]]]].
    now apply (any_in_truthy start_keys). }
  assert (Te : Py.truthy ec = true).
  { destruct He as [_ [_ [_ [He _]]]].
    now apply (any_in_truthy end_keys). }
  apply find_first_match in Hs, He.
  unfold _lead_time_days. fold is_start is_end.
  now rewrite Hs, He, Ts, Te.
Qed.

(** C4.  [_lead_time_days] returns no value when no label matches the
    start keywords or none matches the end keywords.  Otherwise it coerces
    the column of the first start label and the column of the first end
    label to dates, one entry per row, and subtracts them.
    - The subtraction raises [TypeError] when one column has a time zone
      and the other has none, and [OverflowError] when the two columns are
      of the same kind and some difference does not fit 64 bits of
      nanoseconds; a coercion that raises makes the function raise.
    - Otherwise the function takes, row by row, the whole days from start
      to end (the difference in nanoseconds divided by 86400000000000,
      rounded down), keeps those that are defined, at least 0 and below
      365, and returns their median (the middle value of their sorted
      arrangement, or the mean of the two middle ones) when at least three
      are kept, no value otherwise.
    On a sheet whose only such differences are 6, 2 and 4 days it returns
    4, also next to rows of -1 and 400 days; with 8 days more it returns
    5; a start column without time zone and an end column in UTC raise
    [TypeError], and two dates of the years 1684 and 2255 raise
    [OverflowError]. *)
Theorem lead_time_days_spec (df : DataFrame) :
  (no_match is_start (columns df) \/ no_match is_end (columns df) ->
   _lead_time_days df = Returns None) /\
  (forall sc ec,
     first_match is_start (columns df) sc ->
     first_match is_end (columns df) ec ->
     (forall ex, to_datetime (getitem df sc) = Raises ex ->
                 _lead_time_days df = Raises ex) /\
     (forall s ex, to_datetime (getitem df sc) = Returns s ->
                   to_datetime (getitem df ec) = Raises ex ->
                   _lead_time_days df = Raises ex) /\
     (forall s e,
        to_datetime (getitem df sc) = Returns s ->
        to_datetime (getitem df ec) = Returns e ->
        List.length (stamps s) = len df /\
        List.length (stamps e) = len df /\
        (mixed_kinds e s -> _lead_time_days df = Raises TypeError) /\
        (same_kind e s ->
         existsb row_overflows (combine (stamps e) (stamps s)) = true ->
         _lead_time_days df = Raises OverflowError) /\
        (same_kind e s ->
         existsb row_overflows (combine (stamps e) (stamps s)) = false ->
         exists kept sorted,
           map Some kept
           = filter in_range
               (map row_days (combine (stamps e) (stamps s))) /\
           Permutation kept sorted /\ Sorted Z.le sorted /\
           ((List.length kept < 3)%nat ->
            _lead_time_days df = Returns None) /\
           ((3 <= List.length kept)%nat ->
            exists v, is_median sorted v /\
                      _lead_time_days df = Returns (Some v))))) /\
  _lead_time_days sample_dates = Returns (Some (inject_Z 4)) /\
  _lead_time_days sample_dates_wide = Returns (Some (inject_Z 4)) /\
  _lead_time_days sample_dates_even = Returns (Some (inject_Z 5)) /\
  _lead_time_days sample_dates_utc = Raises TypeError /\
  _lead_time_days sample_dates_far = Raises OverflowError.
Proof.
  split; [|split].
  - unfold _lead_time_days. fold is_start is_end.
    intros [H|H]; apply find_no_match in H; rewrite H;
      [reflexivity | now destruct (find is_start (columns df))].
  - intros sc ec Hs He.
    rewrite (lead_time_days_eq df sc ec Hs He).
    split; [intros ex ->; reflexivity|].
    split; [intros s ex -> ->; reflexivity|].
    intros s e Es Ee. rewrite Es, Ee. cbn [bind].
    split; [rewrite (to_datetime_length _ _ Es);
            now apply (first_match_length is_start)|].
    split; [rewrite (to_datetime_length _ _ Ee);
            now apply (first_match_length is_end)|].
    split; [|split].
    + unfold sub_days. intros [[-> ->]|[-> ->]]; reflexivity.
    + intros K O. unfold sub_days.
      rewrite (timedeltas_overflow _ _ O).
      destruct K as [[-> ->]|[-> ->]]; reflexivity.
    + intros K O.
      assert (D : sub_days e s
                  = Returns (map row_days (combine (stamps e) (stamps s)))).
      { unfold sub_days.
        assert (F : forallb (fun p => negb (row_overflows p))
                            (combine (stamps e) (stamps s)) = true).
        { rewrite forallb_forall. intros p Hp. apply negb_true_iff.
          destruct (row_overflows p) eqn:Ep; [|reflexivity].
          rewrite <- O. symmetry. apply existsb_exists. eauto. }
        pose proof (timedeltas_days _ _ F) as T.
        destruct K as [[-> ->]|[-> ->]]; exact T. }
      rewrite D. cbn [bind].
      set (kept := plausible _).
      exists kept, (sort kept).
      split; [apply plausible_filter|].
      split; [apply sort_perm|]. split; [apply sort_sorted|]. split.
      * intros L. destruct (Nat.leb_spec 3 (List.length kept));
          [lia | reflexivity].
      * intros L. destruct (Nat.leb_spec 3 (List.length kept)); [|lia].
        exists (middle (sort kept)). split.
        -- apply middle_is_median. intros N.
           pose proof (Permutation_length (sort_perm kept)) as P.
           rewrite N in P. simpl in P. lia.
        -- destruct kept; [simpl in L; lia | reflexivity].
  - repeat split.
    + unfold _lead_time_days. cbn.
      rewrite !to_datetime_naive_stamps by reflexivity. reflexivity.
    + unfold _lead_time_days. cbn.
      rewrite !to_datetime_naive_stamps by reflexivity. reflexivity.
    + unfold _lead_time_days. cbn.
      rewrite !to_datetime_naive_stamps by reflexivity. reflexivity.
    + unfold _lead_time_days. cbn.
      rewrite !to_datetime_naive_stamps by reflexivity. cbn.
      rewrite !to_datetime_utc_stamps by reflexivity. reflexivity.
    + unfold _lead_time_days. cbn.
      rewrite !to_datetime_naive_stamps by reflexivity. reflexivity.
Qed.

(** C5.  Without a status column there is no conversion.  With one, the
    first label that contains "estado" or "resultado", the conversion
    counts in that column the cells whose lowercased text contains
    "ganad", those that contain "perdid" and those that contain "enviad",
    each count on its own.  It has no value when the three counts add up
    to 0 and is otherwise [round(won / den * 100.0, 2)] computed on
    doubles: the double of a whole number of hundredths within half a
    hundredth of the exact percentage, up to 1e-12.  The column Ganado,
    Perdido, Enviado, ganado gives 50; 23 won of 160 give 14.37 and 1 won
    of 32 gives 3.12; a cell that is both sent and won counts twice, 1 won
    of 3 is 33.33. *)
Theorem conversion_estimate_spec (df : DataFrame) :
  (no_match is_status (columns df) -> conversion_estimate df = None) /\
  (forall c,
     first_match is_status (columns df) c ->
     exists j,
       position c (columns df) = Some j /\
       let count k :=
         Z.of_nat (List.length
                     (rows_where (fun t => Py.contains k (Py.lower t)) j df)) in
       let won := count "ganad" in
       let den := count "ganad" + count "perdid" + count "enviad" in
       (den = 0 -> conversion_estimate df = None) /\
       (den <> 0 ->
        conversion_estimate df
        = Some (Py.round2
                  (Py.fmul (Py.fdiv (inject_Z won) (inject_Z den)) 100)) /\
        exists v n,
          conversion_estimate df = Some v /\
          (Qabs (inject_Z n / 100 - inject_Z won / inject_Z den * 100)
           <= (1 # 200) + (1 # 1000000000000))%Q /\
          (Qabs (v - inject_Z n / 100) <= 1 # 1000000000000)%Q)) /\
  conversion_estimate sample_status = Some (inject_Z 50) /\
  (exists v, conversion_estimate sample_status_160 = Some v /\
             (Qabs (v - (1437 # 100)) <= 1 # 1000000000000)%Q) /\
  (exists v, conversion_estimate sample_status_32 = Some v /\
             (Qabs (v - (312 # 100)) <= 1 # 1000000000000)%Q) /\
  (exists v, conversion_estimate sample_status_both = Some v /\
             (Qabs (v - (3333 # 100)) <= 1 # 1000000000000)%Q).
Proof.
  split; [|split; [|split; [|split; [|split]]]].
  - intros H. apply find_no_match in H.
    unfold conversion_estimate. fold is_status. now rewrite H.
  - intros c Hc.
    destruct (first_match_position _ _ _ Hc) as [j [Hj [_ Hg]]].
    exists j. split; [exact Hj|].
    apply find_first_match in Hc.
    unfold conversion_estimate. fold is_status. rewrite Hc, Hg.
    rewrite !map_map, !count_true_map. unfold rows_where.
    cbv zeta.
    set (gan := Z.of_nat (List.length (filter _ (rows df)))).
    set (per := Z.of_nat (List.length (filter _ (rows df)))).
    set (env := Z.of_nat (List.length (filter _ (rows df)))).
    assert (G : 0 <= gan) by (unfold gan; lia).
    assert (P : 0 <= per) by (unfold per; lia).
    assert (E : 0 <= env) by (unfold env; lia).
    destruct (Z.ltb_spec 0 (gan + per + env)) as [D|D].
    + split; [lia|]. intros _. split; [reflexivity|].
      destruct (percent_round2_close gan (gan + per + env)) as [n [N1 N2]];
        [lia | lia |].
      eexists. exists n. split; [reflexivity|]. split; assumption.
    + split; [reflexivity | lia].
  - reflexivity.
  - eexists. split; [reflexivity|]. vm_compute. discriminate.
  - eexists. split; [reflexivity|]. vm_compute. discriminate.
  - eexists. split; [reflexivity|]. vm_compute. discriminate.
Qed.



End Estimators.

(** ** Further properties of the source *)

(** *** Header normalisation *)

Lemma lower_char_idem (c : ascii) :
  Py.lower_char (Py.lower_char c) = Py.lower_char c.
Proof. destruct c as [[] [] [] [] [] [] [] []]; reflexivity. Qed.

Lemma isspace_lower_char (c : ascii) :
  Py.isspace (Py.lower_char c) = Py.isspace c.
Proof. destruct c as [[] [] [] [] [] [] [] []]; reflexivity. Qed.

Lemma lower_idem (s : string) : Py.lower (Py.lower s) = Py.lower s.
Proof.
  induction s as [|c s IH]; simpl; [reflexivity|].
  now rewrite lower_char_idem, IH.
Qed.

Lemma lstrip_lower (s : string) :
  Py.lstrip (Py.lower s) = Py.lower (Py.lstrip s).
Proof.
  induction s as [|c s IH]; simpl; [reflexivity|].
  rewrite isspace_lower_char. now destruct (Py.isspace c).
Qed.

Lemma rstrip_lower (s : string) :
  Py.rstrip (Py.lower s) = Py.lower (Py.rstrip s).
Proof.
  induction s as [|c s IH]; simpl; [reflexivity|].
  rewrite IH, isspace_lower_char.
  destruct (Py.rstrip s); simpl; [now destruct (Py.isspace c) | reflexivity].
Qed.

Lemma lstrip_no_lead (s : string) : no_lead (Py.lstrip s) = true.
Proof.
  induction s as [|c s IH]; simpl; [reflexivity|].
  destruct (Py.isspace c) eqn:E; [exact IH | simpl; now rewrite E].
Qed.

Lemma no_lead_lstrip (s : string) : no_lead s = true -> Py.lstrip s = s.
Proof.
  destruct s as [|c s]; simpl; [reflexivity|].
  now destruct (Py.isspace c).
Qed.

Lemma rstrip_no_lead (s : string) :
  no_lead s = true -> no_lead (Py.rstrip s) = true.
Proof.
  destruct s as [|c s]; simpl; [reflexivity|]. intros Hc.
  destruct (Py.rstrip s); simpl; [|exact Hc].
  destruct (Py.isspace c) eqn:E; simpl; [reflexivity | now rewrite E].
Qed.

Lemma rstrip_idem (s : string) : Py.rstrip (Py.rstrip s) = Py.rstrip s.
Proof.
  induction s as [|c s IH]; simpl; [reflexivity|].
  destruct (Py.rstrip s) as [|d t] eqn:E.
  - destruct (Py.isspace c) eqn:Hc; simpl; [reflexivity | now rewrite Hc].
  - change (Py.rstrip (String c (String d t)))
      with (match Py.rstrip (String d t) with
            | EmptyString =>
                if Py.isspace c then EmptyString else String c EmptyString
            | u => String c u
            end).
    now rewrite IH.
Qed.

Lemma strip_idem (s : string) : Py.strip (Py.strip s) = Py.strip s.
Proof.
  unfold Py.strip.
  rewrite (no_lead_lstrip (Py.rstrip (Py.lstrip s)))
    by apply rstrip_no_lead, lstrip_no_lead.
  apply rstrip_idem.
Qed.

Lemma strip_lower (s : string) : Py.strip (Py.lower s) = Py.lower (Py.strip s).
Proof. unfold Py.strip. now rewrite lstrip_lower, rstrip_lower. Qed.

(** X1.  [_norm] is idempotent and blind to the case of its argument:
    normalising a normalised label, or the lowercased label, gives the
    normalised label. *)
Theorem norm_idempotent (s : string) :
  _norm (_norm s) = _norm s /\ _norm (Py.lower s) = _norm s.
Proof.
  unfold _norm. split.
  - now rewrite strip_lower, strip_idem, lower_idem.
  - now rewrite strip_lower, lower_idem.
Qed.

(** *** Substrings *)




Section Classification.

Context {VC : ValueCoercer}.

Lemma count_true_positive (l : list bool) :
  (0 <? count_true l) = existsb (fun b => b) l.
Proof.
  unfold count_true. induction l as [|[|] l IH]; simpl List.length;
    simpl existsb; [reflexivity | | exact IH].
  apply Z.ltb_lt. simpl filter. simpl List.length. lia.
Qed.

Lemma classified_iff (df : DataFrame) (kws : list string) (c : string) :
  classified df kws c = true <->
  Py.any_in kws (_norm c) = true /\
  exists q, In (Some q) (to_numeric (getitem df c)).
Proof.
  unfold classified. rewrite andb_true_iff, count_true_positive.
  rewrite existsb_exists. split; intros [Hk H]; (split; [exact Hk|]).
  - destruct H as [b [Hb ->]]. apply in_map_iff in Hb as [[q|] [Hq Ho]];
      [eauto | discriminate].
  - destruct H as [q Hq]. exists true. split; [|reflexivity].
    apply in_map_iff. now exists (Some q).
Qed.

Lemma numeric_of_in (l : list cell) (os : list (option Q)) (c : cell) :
  Forall2 numeric_of l os -> In c l -> exists o, In o os /\ numeric_of c o.
Proof.
  induction 1 as [|x o l os Hx _ IH]; simpl; [intros []|].
  intros [<-|Hc]; [eauto|].
  destruct (IH Hc) as [o' [Ho' Hn]]. eauto.
Qed.

Lemma numeric_of_missing (l : list cell) (os : list (option Q)) :
  Forall2 numeric_of l os -> forallb nan_or_none l = true ->
  forall o, In o os -> o = None.
Proof.
  induction 1 as [|x o l os Hx _ IH]; simpl; [intros _ ? []|].
  intros Hl o' [<-|Ho'].
  - apply andb_true_iff in Hl as [Hx' _].
    destruct x as [t|z|q|t|t|[| |]]; try discriminate; exact Hx.
  - apply andb_true_iff in Hl as [_ Hl]. now apply IH.
Qed.

Lemma find_numeric_cols_in (df : DataFrame) (kws : list string) (c : string) :
  In c (_find_numeric_cols df kws) <->
  In c (columns df) /\ Py.any_in kws (_norm c) = true /\
  exists q, In (Some q) (to_numeric (getitem df c)).
Proof.
  unfold _find_numeric_cols. now rewrite filter_In, classified_iff.
Qed.

(** X2.  [_find_numeric_cols] returns exactly the labels of the table
    that contain a keyword once normalised and whose column has at least
    one value after numeric coercion.  So a column with a matching label
    and a cell that holds a number is returned, and a column whose cells
    are all [NaN] or [None] is not, whatever its label. *)
Theorem find_numeric_cols_spec (df : DataFrame) (kws : list string)
  (c : string) :
  (In c (_find_numeric_cols df kws) <->
   In c (columns df) /\ Py.any_in kws (_norm c) = true /\
   exists q, In (Some q) (to_numeric (getitem df c))) /\
  (In c (columns df) -> Py.any_in kws (_norm c) = true ->
   (exists x q, In x (getitem df c) /\ number x = Some q) ->
   In c (_find_numeric_cols df kws)) /\
  (forallb nan_or_none (getitem df c) = true ->
   ~ In c (_find_numeric_cols df kws)).
Proof.
  rewrite find_numeric_cols_in.
  split; [tauto|]. split.
  - intros Hc Hk [x [q [Hx Hq]]]. repeat split; try assumption.
    destruct (numeric_of_in _ _ _ (to_numeric_cells (getitem df c)) Hx)
      as [o [Ho Hn]].
    destruct x; simpl in Hq; try discriminate; simpl in Hn; subst o; eauto.
  - intros Hna [_ [_ [q Hq]]].
    pose proof (numeric_of_missing _ _ (to_numeric_cells (getitem df c))
                  Hna _ Hq).
    discriminate.
Qed.


End Classification.

(** *** The client filter *)

Section ClientFilterMore.

Context {VC : ValueCoercer} {RE : RegexEngine}.

Lemma filter_all_true {A : Type} (l : list A) : filter (fun _ => true) l = l.
Proof. induction l as [|x l IH]; simpl; [reflexivity | now rewrite IH]. Qed.

Lemma filter_length_le {A : Type} (p : A -> bool) (l : list A) :
  (List.length (filter p l) <= List.length l)%nat.
Proof.
  induction l as [|x l IH]; simpl; [lia|]. destruct (p x); simpl; lia.
Qed.

(** X4.  Whatever the substring, a frame the client filter returns has the
    labels of the table and a selection of its rows, in their order: no
    row is added or altered, and none is counted twice. *)
Theorem apply_client_filter_selects (df df2 : DataFrame) (s : string) :
  _apply_client_filter df s = Returns df2 ->
  columns df2 = columns df /\
  (exists p, rows df2 = filter p (rows df)) /\
  (len df2 <= len df)%nat.
Proof.
  intros H.
  assert (E : columns df2 = columns df /\
              exists p, rows df2 = filter p (rows df)).
  { rewrite apply_client_filter_eq in H.
    assert (I : forall d, Returns df = Returns d ->
                columns d = columns df /\
                exists p, rows d = filter p (rows df)).
    { intros d [= <-]. split; [reflexivity|].
      exists (fun _ => true). now rewrite filter_all_true. }
    destruct (Py.truthy s); [|now apply I].
    destruct (find is_client (columns df)) as [c|]; [|now apply I].
    destruct (re_compiles s); [|discriminate].
    injection H as <-. split; [reflexivity|]. simpl.
    unfold getitem. destruct (position c (columns df)) as [j|].
    - rewrite !map_map, select_map. eauto.
    - exists (fun _ => false). simpl.
      destruct (rows df) as [|r l]; [reflexivity|].
      clear. induction (r :: l) as [|x l' IH]; simpl; [reflexivity|exact IH]. }
  destruct E as [Hc [p Hp]]. split; [exact Hc|]. split; [eauto|].
  unfold len. rewrite Hp. apply filter_length_le.
Qed.

(** X5.  With a client column and a substring that is not empty and has
    no metacharacter of regular expressions, the filter returns the labels
    of the table with exactly the rows whose client cell, written by
    [str], contains the substring up to case. *)
Theorem apply_client_filter_plain_substring (df : DataFrame) (s c : string) :
  Py.truthy s = true -> is_literal s = true ->
  first_match is_client (columns df) c ->
  exists j,
    position c (columns df) = Some j /\
    _apply_client_filter df s =
    Returns (mkDataFrame (columns df)
               (filter (fun r => Py.contains (Py.lower s)
                                   (Py.lower (astype_str (cell_at j r))))
                       (rows df))).
Proof.
  intros Hs Hl Hc.
  destruct (position_first _ _ (first_match_in _ _ _ Hc)) as [j [Hj _]].
  exists j. split; [exact Hj|].
  exact (apply_client_filter_literal df s c j Hs Hl Hc Hj).
Qed.

(** X6.  Two substrings without metacharacters that differ by case only
    filter alike. *)
Theorem apply_client_filter_ignores_case (df : DataFrame) (s s' : string) :
  is_literal s = true -> is_literal s' = true ->
  Py.lower s = Py.lower s' ->
  _apply_client_filter df s = _apply_client_filter df s'.
Proof.
  intros Hl Hl' E. rewrite !apply_client_filter_eq.
  assert (T : Py.truthy s = Py.truthy s').
  { destruct s, s'; simpl in *; try reflexivity; discriminate. }
  rewrite <- T. destruct (Py.truthy s); [|reflexivity].
  destruct (find is_client (columns df)) as [c|]; [|reflexivity].
  rewrite (proj1 (re_literal s "" Hl)), (proj1 (re_literal s' "" Hl')).
  do 3 f_equal. apply map_ext. intros t.
  rewrite (proj2 (re_literal s t Hl)), (proj2 (re_literal s' t Hl')).
  now rewrite E.
Qed.

End ClientFilterMore.

(** *** Bounds on the estimators *)

Lemma getitem_length_le (df : DataFrame) (c : string) :
  (List.length (getitem df c) <= len df)%nat.
Proof.
  unfold getitem, len. destruct (position c (columns df)); simpl.
  - now rewrite length_map.
  - lia.
Qed.

Lemma unique_length_le (l : list cell) :
  (List.length (unique l) <= List.length l)%nat.
Proof.
  induction l as [|x l IH]; simpl; [lia|].
  pose proof (filter_length_le (fun y => negb (cell_eqb x y)) (unique l)).
  lia.
Qed.

Lemma count_true_bounds (l : list bool) :
  0 <= count_true l <= Z.of_nat (List.length l).
Proof.
  unfold count_true. pose proof (filter_length_le (fun b => b) l). lia.
Qed.

Lemma plausible_range (d : list (option Z)) (x : Z) :
  In x (plausible d) -> 0 <= x < 365.
Proof.
  induction d as [|[y|] d IH]; simpl; [intros [] | | exact IH].
  destruct (Z.leb_spec 0 y), (Z.ltb_spec y 365); simpl; auto.
  intros [<-|H']; [lia | auto].
Qed.

Lemma plausible_length_le (d : list (option Z)) :
  (List.length (plausible d) <= List.length d)%nat.
Proof.
  induction d as [|[y|] d IH]; simpl; [lia | | lia].
  destruct ((0 <=? y) && (y <? 365)); simpl; lia.
Qed.

Lemma sub_days_length `{ValueCoercer} (e s : DatetimeSeries)
  (d : list (option Z)) :
  List.length (stamps e) = List.length (stamps s) ->
  sub_days e s = Returns d ->
  (List.length d <= List.length (stamps e))%nat.
Proof.
  intros L. unfold sub_days.
  assert (T : (x <- timedeltas (stamps e) (stamps s) ;; Returns (map days x))
              = Returns d ->
              (List.length d <= List.length (stamps e))%nat).
  { destruct (timedeltas (stamps e) (stamps s)) as [x|] eqn:E; simpl;
      [|discriminate].
    intros [= <-]. rewrite length_map. now apply timedeltas_length in E. }
  assert (O : object_days e s = Returns d ->
              (List.length d <= List.length (stamps e))%nat).
  { intros E. now rewrite (object_days_length e s d L E). }
  destruct (dtype e), (dtype s); try discriminate; assumption.
Qed.

Lemma middle_between (s : list Z) (a b : Z) :
  s <> [] -> (forall x, In x s -> a <= x <= b) ->
  (inject_Z a <= middle s)%Q /\ (middle s <= inject_Z b)%Q.
Proof.
  intros Hs Hall. unfold middle.
  assert (Hn : (0 < List.length s)%nat)
    by (destruct s; [contradiction | simpl; lia]).
  assert (Hhalf : (List.length s / 2 < List.length s)%nat)
    by (apply Nat.div_lt; lia).
  assert (Hin : forall i, (i < List.length s)%nat -> a <= nth i s 0 <= b)
    by (intros i Hi; apply Hall, nth_In, Hi).
  pose proof (Hin _ Hhalf) as H2.
  assert (H1 : a <= nth (List.length s / 2 - 1) s 0 <= b)
    by (apply Hin; lia).
  destruct (Nat.even (List.length s)).
  - rewrite Qred_correct.
    set (u := nth (List.length s / 2 - 1) s 0) in *.
    set (v := nth (List.length s / 2) s 0) in *.
    unfold Qle, Qdiv, Qmult, Qplus, Qinv, inject_Z; simpl. lia.
  - rewrite <- !Zle_Qle. lia.
Qed.

Section EstimatorBounds.

Context {VC : ValueCoercer}.

Lemma count_services_range (df : DataFrame) :
  0 <= _count_services df <= Z.of_nat (len df).
Proof.
  unfold _count_services.
  destruct (first_by_keys keys (columns df)) as [c|].
  - unfold nunique.
    pose proof (unique_length_le (filter (fun c => negb (isna c))
                                         (getitem df c))).
    pose proof (filter_length_le (fun c => negb (isna c)) (getitem df c)).
    pose proof (getitem_length_le df c). lia.
  - destruct (_find_numeric_cols df ING_HINTS) as [|c cs];
      [lia|].
    pose proof (count_true_bounds
                  (map positive (to_numeric (getitem df c)))) as B.
    rewrite length_map, to_numeric_length in B.
    pose proof (getitem_length_le df c). lia.
Qed.

(** X7.  The number of services of a sheet is never negative and never
    above its number of rows. *)
Theorem count_services_bounds (df : DataFrame) :
  0 <= _count_services df <= Z.of_nat (len df).
Proof. apply count_services_range. Qed.

(** X8.  A conversion estimate, when there is one, is a percentage: it
    lies between 0 and 100. *)
Theorem conversion_estimate_bounds (df : DataFrame) (v : Q) :
  conversion_estimate df = Some v -> (0 <= v)%Q /\ (v <= 100)%Q.
Proof.
  unfold conversion_estimate.
  destruct (find _ (columns df)) as [c|]; [|discriminate].
  cbv zeta.
  set (est := map _ (getitem df c)).
  pose proof (count_true_bounds (map (Py.contains "ganad") est)) as [G _].
  pose proof (count_true_bounds (map (Py.contains "perdid") est)) as [P _].
  pose proof (count_true_bounds (map (Py.contains "enviad") est)) as [E _].
  set (gan := count_true (map (Py.contains "ganad") est)) in *.
  set (per := count_true (map (Py.contains "perdid") est)) in *.
  set (env := count_true (map (Py.contains "enviad") est)) in *.
  destruct (Z.ltb_spec 0 (gan + per + env)) as [D|]; [|discriminate].
  intros [= <-].
  destruct (percent_close gan (gan + per + env)) as [L [U _]]; [lia | lia |].
  apply (round2_between _ 100); [exact L | exact U | reflexivity].
Qed.

(** What [_lead_time_days] can do: return no value, raise, or return
    what the kept deltas give once the two coercions and the subtraction
    have returned. *)
Lemma lead_time_days_cases (df : DataFrame) :
  _lead_time_days df = Returns None \/
  (exists ex, _lead_time_days df = Raises ex) \/
  exists sc ec s e d,
    first_match is_start (columns df) sc /\
    first_match is_end (columns df) ec /\
    to_datetime (getitem df sc) = Returns s /\
    to_datetime (getitem df ec) = Returns e /\
    sub_days e s = Returns d /\
    _lead_time_days df
    = Returns (if (3 <=? List.length (plausible d))%nat
               then median (plausible d) else None).
Proof.
  destruct (find is_start (columns df)) as [sc|] eqn:Fs.
  - destruct (find is_end (columns df)) as [ec|] eqn:Fe.
    + apply find_first_match in Fs, Fe.
      rewrite (lead_time_days_eq df sc ec Fs Fe).
      destruct (to_datetime (getitem df sc)) as [s|ex] eqn:Es;
        [|right; left; now exists ex].
      destruct (to_datetime (getitem df ec)) as [e|ex] eqn:Ee;
        [|right; left; now exists ex].
      cbn [bind].
      destruct (sub_days e s) as [d|ex] eqn:Ed;
        [|right; left; now exists ex].
      right. right. exists sc, ec, s, e, d. cbn [bind]. auto 7.
    + left. unfold _lead_time_days. fold is_start is_end.
      now rewrite Fs, Fe.
  - left. unfold _lead_time_days. fold is_start is_end. now rewrite Fs.
Qed.

(** X9.  A median lead time, when there is one, lies between 0 and 364
    days. *)
Theorem lead_time_days_bounds (df : DataFrame) (v : Q) :
  _lead_time_days df = Returns (Some v) -> (0 <= v)%Q /\ (v <= 364)%Q.
Proof.
  destruct (lead_time_days_cases df)
    as [->|[[ex ->]|[sc [ec [s [e [d [_ [_ [_ [_ [_ ->]]]]]]]]]]]];
    try discriminate.
  set (kept := plausible d).
  destruct (3 <=? List.length kept)%nat eqn:H3; [|discriminate].
  apply Nat.leb_le in H3.
  destruct kept as [|x kept'] eqn:Ek; [simpl in H3; lia|].
  rewrite <- Ek in *. unfold median. rewrite Ek. rewrite <- Ek.
  intros [= <-].
  apply (middle_between (sort kept) 0 364).
  - intros Hnil. pose proof (Permutation_length (sort_perm kept)) as L.
    rewrite Hnil, Ek in L. discriminate.
  - intros y Hy.
    apply (Permutation_in _ (Permutation_sym (sort_perm kept))) in Hy.
    unfold kept in Hy. apply plausible_range in Hy. lia.
Qed.

Lemma lead_time_days_short (df : DataFrame) :
  (len df < 3)%nat ->
  _lead_time_days df = Returns None \/
  exists ex, _lead_time_days df = Raises ex.
Proof.
  intros Hlen.
  destruct (lead_time_days_cases df)
    as [H|[H|[sc [ec [s [e [d [Hs [He [Es [Ee [Ed ->]]]]]]]]]]]];
    [now left | now right | left].
  assert (Ls : List.length (stamps s) = len df).
  { rewrite (to_datetime_length _ _ Es).
    now apply (first_match_length is_start). }
  assert (Le : List.length (stamps e) = len df).
  { rewrite (to_datetime_length _ _ Ee).
    now apply (first_match_length is_end). }
  pose proof (sub_days_length e s d (eq_trans Le (eq_sym Ls)) Ed).
  pose proof (plausible_length_le d).
  destruct (Nat.leb_spec 3 (List.length (plausible d)));
    [lia | reflexivity].
Qed.

(** X10.  A sheet with fewer than three rows never has a lead time,
    whatever its columns hold: [_lead_time_days] returns no value, unless
    the coercion or the subtraction of its date columns raises, as they do
    on two rows whose start has no time zone and whose end has one. *)
Theorem lead_time_days_needs_three_rows (df : DataFrame) :
  (len df < 3)%nat ->
  (_lead_time_days df = Returns None \/
   exists ex, _lead_time_days df = Raises ex) /\
  (forall v, _lead_time_days df <> Returns (Some v)) /\
  _lead_time_days sample_two_rows = Raises TypeError.
Proof.
  intros H. split; [now apply lead_time_days_short|]. split.
  - intros v E.
    destruct (lead_time_days_short df H) as [N|[ex N]];
      rewrite N in E; discriminate.
  - unfold _lead_time_days. cbn.
    rewrite !to_datetime_naive_stamps by reflexivity. cbn.
    rewrite !to_datetime_utc_stamps by reflexivity. reflexivity.
Qed.




End EstimatorBounds.

(** *** The aggregator *)

Lemma for_each_ext {A S : Type} (f g : S -> A -> outcome S) (l : list A) :
  (forall st x, In x l -> f st x = g st x) ->
  forall st, for_each f l st = for_each g l st.
Proof.
  induction l as [|x l IH]; intros H st; simpl; [reflexivity|].
  rewrite (H st x) by now left.
  destruct (g st x) as [st'|e]; simpl; [|reflexivity].
  apply IH. intros st0 y Hy. apply H. now right.
Qed.


Lemma sum_field_app (f : SheetSummary -> Q) (a b : list (string * SheetSummary)) :
  (sum_field f (a ++ b) == sum_field f a + sum_field f b)%Q.
Proof.
  induction a as [|x a IH]; simpl; [ring|]. rewrite IH. ring.
Qed.

Section AggregatorMore.

Context {VC : ValueCoercer} {RE : RegexEngine}.

Lemma filter_all_columns (s : string) (dfs dfs' : list DataFrame) :
  filter_all s dfs = Returns dfs' ->
  Forall2 (fun d d' => columns d' = columns d) dfs dfs'.
Proof.
  revert dfs'. induction dfs as [|d dfs IH]; intros dfs'; simpl.
  - intros [= <-]. constructor.
  - destruct (_apply_client_filter d s) as [d2|] eqn:E; simpl;
      [|discriminate].
    destruct (filter_all s dfs) as [rest|]; simpl; [|discriminate].
    intros [= <-]. constructor; [|now apply IH].
    now apply (apply_client_filter_columns d d2 s).
Qed.

Lemma kept_sheets_in (data : list (string * option DataFrame))
  (df : DataFrame) :
  In df (kept_sheets data) -> exists hoja, In (hoja, Some df) data.
Proof.
  induction data as [|[hoja [d|]] data IH]; simpl; [intros [] | |].
  - destruct (empty d).
    + intros H. destruct (IH H) as [h Hh]. eauto.
    + intros [->|H]; [eauto|]. destruct (IH H) as [h Hh]. eauto.
  - intros H. destruct (IH H) as [h Hh]. eauto.
Qed.

Lemma lead_time_days_no_date_pair (df df' : DataFrame) :
  columns df' = columns df -> no_date_pair df ->
  _lead_time_days df' = Returns None.
Proof.
  intros E H. unfold _lead_time_days. fold is_start is_end. rewrite E.
  destruct H as [H|H]; apply find_no_match in H; rewrite H;
    [reflexivity | now destruct (find is_start (columns df))].
Qed.

(** X11.  With a client substring without metacharacters of regular
    expressions, the empty one included, the client filter returns on
    every sheet, and the aggregator returns a report exactly when
    [_lead_time_days] returns on every filtered sheet: nothing else in it
    can raise.  It does so for every dataset in which no sheet has both a
    start and an end column; on a sheet whose start column has no time
    zone and whose end column has one it raises [TypeError], even with the
    empty substring. *)
Theorem analizar_returns_for_plain_substring
  (data : list (string * option DataFrame)) (s : string) :
  is_literal s = true ->
  (exists dfs,
     filter_all s (kept_sheets data) = Returns dfs /\
     ((exists r, analizar_datos_taller data s = Returns r) <->
      Forall (fun d => exists o, _lead_time_days d = Returns o) dfs)) /\
  ((forall hoja df, In (hoja, Some df) data -> no_date_pair df) ->
   exists r, analizar_datos_taller data s = Returns r) /\
  analizar_datos_taller [("fechas", Some sample_dates_utc)] ""
  = Raises TypeError.
Proof.
  intros H.
  destruct (filter_all_total s (kept_sheets data) (literal_pattern_ok s H))
    as [dfs Hf].
  assert (R : (exists r, analizar_datos_taller data s = Returns r) <->
              Forall (fun d => exists o, _lead_time_days d = Returns o) dfs).
  { rewrite analizar_datos_taller_returns. split.
    - intros [dfs' [Hf' Hr]]. rewrite Hf in Hf'. now injection Hf' as ->.
    - intros Hr. now exists dfs. }
  split; [exists dfs; now split|]. split.
  - intros Hn. apply R.
    pose proof (filter_all_columns _ _ _ Hf) as Hc.
    assert (Hk : forall df, In df (kept_sheets data) -> no_date_pair df).
    { intros df Hdf. destruct (kept_sheets_in _ _ Hdf) as [hoja Hin].
      exact (Hn hoja df Hin). }
    clear -Hc Hk.
    induction Hc as [|d d' l l' E _ IH]; constructor.
    + exists None. apply (lead_time_days_no_date_pair d d' E).
      apply Hk. now left.
    + apply IH. intros df Hdf. apply Hk. now right.
  - unfold analizar_datos_taller, loop_body, _lead_time_days. cbn.
    rewrite !to_datetime_naive_stamps by reflexivity. cbn.
    rewrite !to_datetime_utc_stamps by reflexivity. reflexivity.
Qed.

Lemma for_each_processed (s : string) (data : list (string * option DataFrame))
  (st : Locals) :
  for_each (loop_body s) (processed data) st = for_each (loop_body s) data st.
Proof.
  revert st. induction data as [|[hoja [df|]] data IH]; intros st;
    [reflexivity | | exact (IH st)].
  unfold processed, skipped. simpl.
  destruct (empty df) eqn:E; simpl.
  - apply IH.
  - rewrite E. simpl.
    destruct (_apply_client_filter df s) as [df2|]; simpl; [|reflexivity].
    destruct (_lead_time_days df2); simpl; [apply IH | reflexivity].
Qed.

(** X12.  Sheets that are [None] or empty do not count: the aggregator
    gives the same result, report or exception, on the dataset without
    them. *)
Theorem analizar_skips_empty_sheets
  (data : list (string * option DataFrame)) (s : string) :
  analizar_datos_taller (processed data) s = analizar_datos_taller data s.
Proof.
  unfold analizar_datos_taller. now rewrite for_each_processed.
Qed.

(** X13.  When no sheet has a client column the client substring is
    ignored: the aggregator gives the result it gives without a substring,
    even for a substring that is not a valid regular expression. *)
Theorem analizar_ignores_substring_without_client
  (data : list (string * option DataFrame)) (s : string) :
  (forall hoja df, In (hoja, Some df) data ->
                   no_match is_client (columns df)) ->
  analizar_datos_taller data s = analizar_datos_taller data "".
Proof.
  intros H. unfold analizar_datos_taller. f_equal.
  apply for_each_ext. intros st [hoja [df|]] Hin; [|reflexivity].
  unfold loop_body.
  rewrite (apply_client_filter_no_column df s) by exact (H _ _ Hin).
  reflexivity.
Qed.





End AggregatorMore.

(** ** The properties on the sample sheets *)

Lemma apply_client_filter_idempotent_witness :
  @_apply_client_filter reference_coercer reference_engine
     sample_clients "acme" = Returns sample_clients_acme /\
  @_apply_client_filter reference_coercer reference_engine
     sample_clients_acme "acme" = Returns sample_clients_acme.
Proof.
  assert (H : @_apply_client_filter reference_coercer reference_engine
                sample_clients "acme" = Returns sample_clients_acme)
    by (vm_compute; reflexivity).
  split; [exact H|].
  exact (@apply_client_filter_idempotent reference_coercer reference_engine
           sample_clients sample_clients_acme "acme" H).
Defined.

Lemma report_margen_witness :
  exists r, run sample_book "" = Returns r /\
            margen r = (ingresos r - costos r)%Q /\
            (ingresos r == 1000)%Q /\ (costos r == 400)%Q /\
            (margen r == 600)%Q.
Proof.
  eexists. split; [vm_compute; reflexivity|]. split.
  - apply (@report_margen reference_coercer reference_engine
             sample_book ""). vm_compute; reflexivity.
  - repeat split.
Defined.


Lemma report_margen_pct_rounded_witness :
  exists r, run sample_tie "" = Returns r /\
            ~ (ingresos r == 0)%Q /\
            (margen r / ingresos r * 100 == 2675 # 1000)%Q /\
            (Qabs (margen_pct r - (267 # 100)) <= 1 # 1000000000000)%Q /\
            margen_pct r
            = Py.round2 (Py.fmul (Py.fdiv (margen r) (ingresos r)) 100) /\
            exists n : Z,
              (Qabs (inject_Z n / 100
                     - Py.fmul (Py.fdiv (margen r) (ingresos r)) 100)
               <= 1 # 200)%Q /\
              (Qabs (margen_pct r - inject_Z n / 100)
               <= Qabs (inject_Z n / 100) * (1 # 2 ^ 53) + (1 # 2 ^ 1075))%Q.
Proof.
  eexists. split; [vm_compute; reflexivity|].
  split; [discriminate|]. split; [reflexivity|].
  split; [vm_compute; discriminate|].
  destruct (@report_margen_pct_rounded reference_coercer reference_engine
              sample_tie "" _ eq_refl) as [F [N _]];
    [discriminate|].
  split; [exact F | exact N].
Defined.

Lemma report_last_defined_wins_witness :
  exists r, run sample_pipeline "" = Returns r /\
    conversion_pct r = Some (inject_Z 50) /\
    lead_time_mediano_dias r = Some (inject_Z 4) /\
    exists dfs,
      @filter_all reference_coercer reference_engine ""
        (kept_sheets sample_pipeline) = Returns dfs /\
      last_defined (@conversion_estimate reference_coercer) dfs
        (conversion_pct r) /\
      last_returned (@_lead_time_days reference_coercer) dfs
        (lead_time_mediano_dias r).
Proof.
  eexists. split; [vm_compute; reflexivity|].
  split; [reflexivity|]. split; [reflexivity|].
  apply (@report_last_defined_wins reference_coercer reference_engine
           sample_pipeline ""). vm_compute; reflexivity.
Defined.

Lemma lead_time_days_spec_witness :
  (no_match is_start (columns sample_status) /\
   @_lead_time_days reference_coercer sample_status = Returns None) /\
  first_match is_start (columns sample_dates) "Fecha Ingreso" /\
  first_match is_end (columns sample_dates) "Fecha Salida" /\
  exists s e,
    @to_datetime reference_coercer (getitem sample_dates "Fecha Ingreso")
    = Returns s /\
    @to_datetime reference_coercer (getitem sample_dates "Fecha Salida")
    = Returns e /\
    same_kind e s /\
    existsb row_overflows (combine (stamps e) (stamps s)) = false /\
    exists kept sorted,
      map Some kept
      = filter in_range (map row_days (combine (stamps e) (stamps s))) /\
      Permutation kept sorted /\ Sorted Z.le sorted /\
      ((List.length kept < 3)%nat ->
       @_lead_time_days reference_coercer sample_dates = Returns None) /\
      ((3 <= List.length kept)%nat ->
       exists v, is_median sorted v /\
                 @_lead_time_days reference_coercer sample_dates
                 = Returns (Some v)).
Proof.
  assert (N : no_match is_start (columns sample_status)).
  { intros y [<-|[]]. reflexivity. }
  assert (S1 : first_match is_start (columns sample_dates) "Fecha Ingreso").
  { exists [], ["Fecha Salida"]. repeat split. intros y []. }
  assert (E1 : first_match is_end (columns sample_dates) "Fecha Salida").
  { exists ["Fecha Ingreso"], []. repeat split. intros y [<-|[]]. reflexivity. }
  split; [split; [exact N|]|split; [exact S1|split; [exact E1|]]].
  - exact (proj1 (@lead_time_days_spec reference_coercer sample_status)
             (or_introl N)).
  - eexists. eexists.
    split; [vm_compute; reflexivity|]. split; [vm_compute; reflexivity|].
    split; [left; split; reflexivity|]. split; [reflexivity|].
    destruct (@lead_time_days_spec reference_coercer sample_dates)
      as [_ [B _]].
    destruct (B _ _ S1 E1) as [_ [_ P]].
    destruct (P _ _ eq_refl eq_refl) as [_ [_ [_ [_ K]]]].
    apply K; [left; split; reflexivity | reflexivity].
Defined.

Lemma conversion_estimate_spec_witness :
  first_match is_status (columns sample_status_160) "Resultado" /\
  exists j,
    position "Resultado" (columns sample_status_160) = Some j /\
    let count k :=
      Z.of_nat (List.length
                  (@rows_where reference_coercer
                     (fun t => Py.contains k (Py.lower t)) j
                     sample_status_160)) in
    let won := count "ganad" in
    let den := count "ganad" + count "perdid" + count "enviad" in
    (den = 0 -> @conversion_estimate reference_coercer sample_status_160
                = None) /\
    (den <> 0 ->
     @conversion_estimate reference_coercer sample_status_160
     = Some (Py.round2
               (Py.fmul (Py.fdiv (inject_Z won) (inject_Z den)) 100)) /\
     exists v n,
       @conversion_estimate reference_coercer sample_status_160 = Some v /\
       (Qabs (inject_Z n / 100 - inject_Z won / inject_Z den * 100)
        <= (1 # 200) + (1 # 1000000000000))%Q /\
       (Qabs (v - inject_Z n / 100) <= 1 # 1000000000000)%Q).
Proof.
  assert (S1 : first_match is_status (columns sample_status_160) "Resultado").
  { exists [], []. repeat split. intros y []. }
  split; [exact S1|].
  exact (proj1 (proj2 (@conversion_estimate_spec reference_coercer
                         sample_status_160)) _ S1).
Defined.


(** ** The further properties on the sample sheets *)

Lemma find_numeric_cols_spec_witness :
  (In "Total" (columns sample_sales) /\
   Py.any_in ING_HINTS (_norm "Total") = true /\
   (exists x q, In x (getitem sample_sales "Total") /\ number x = Some q) /\
   In "Total" (@_find_numeric_cols reference_coercer sample_sales ING_HINTS))
  /\
  (forallb nan_or_none
     (getitem (mkDataFrame ["Total"] [[CMissing NaN]]) "Total") = true /\
   ~ In "Total" (@_find_numeric_cols reference_coercer
                   (mkDataFrame ["Total"] [[CMissing NaN]]) ING_HINTS)).
Proof.
  assert (H1 : In "Total" (columns sample_sales)) by now left.
  assert (H2 : Py.any_in ING_HINTS (_norm "Total") = true) by reflexivity.
  assert (H3 : exists x q, In x (getitem sample_sales "Total") /\
                           number x = Some q).
  { exists (CInt 600), (inject_Z 600). split; [now left | reflexivity]. }
  split.
  - split; [exact H1|]. split; [exact H2|]. split; [exact H3|].
    exact (proj1 (proj2 (@find_numeric_cols_spec reference_coercer
                           sample_sales ING_HINTS "Total")) H1 H2 H3).
  - split; [reflexivity|].
    exact (proj2 (proj2 (@find_numeric_cols_spec reference_coercer
                           (mkDataFrame ["Total"] [[CMissing NaN]])
                           ING_HINTS "Total")) eq_refl).
Defined.


Lemma apply_client_filter_selects_witness :
  @_apply_client_filter reference_coercer reference_engine
     sample_clients "acme" = Returns sample_clients_acme /\
  columns sample_clients_acme = columns sample_clients /\
  (exists p, rows sample_clients_acme = filter p (rows sample_clients)) /\
  (len sample_clients_acme <= len sample_clients)%nat.
Proof.
  assert (H : @_apply_client_filter reference_coercer reference_engine
                sample_clients "acme" = Returns sample_clients_acme)
    by (vm_compute; reflexivity).
  split; [exact H|].
  exact (@apply_client_filter_selects reference_coercer reference_engine
           sample_clients sample_clients_acme "acme" H).
Defined.

Lemma apply_client_filter_plain_substring_witness :
  Py.truthy "acme" = true /\ is_literal "acme" = true /\
  first_match is_client (columns sample_clients) "Cliente" /\
  exists j,
    position "Cliente" (columns sample_clients) = Some j /\
    @_apply_client_filter reference_coercer reference_engine
      sample_clients "acme" =
    Returns (mkDataFrame (columns sample_clients)
               (filter (fun r => Py.contains (Py.lower "acme")
                                   (Py.lower (@astype_str reference_coercer
                                                (cell_at j r))))
                       (rows sample_clients))).
Proof.
  assert (F : first_match is_client (columns sample_clients) "Cliente").
  { exists [], ["Total"]. repeat split. intros y []. }
  split; [reflexivity|]. split; [reflexivity|]. split; [exact F|].
  exact (@apply_client_filter_plain_substring reference_coercer
           reference_engine sample_clients "acme" "Cliente"
           eq_refl eq_refl F).
Defined.

Lemma apply_client_filter_ignores_case_witness :
  is_literal "acme" = true /\ is_literal "ACME" = true /\
  Py.lower "acme" = Py.lower "ACME" /\
  @_apply_client_filter reference_coercer reference_engine
    sample_clients "acme" =
  @_apply_client_filter reference_coercer reference_engine
    sample_clients "ACME".
Proof.
  split; [reflexivity|]. split; [reflexivity|]. split; [reflexivity|].
  exact (@apply_client_filter_ignores_case reference_coercer
           reference_engine sample_clients "acme" "ACME"
           eq_refl eq_refl eq_refl).
Defined.

Lemma conversion_estimate_bounds_witness :
  @conversion_estimate reference_coercer sample_status = Some (inject_Z 50) /\
  (0 <= inject_Z 50)%Q /\ (inject_Z 50 <= 100)%Q.
Proof.
  split; [reflexivity|].
  exact (@conversion_estimate_bounds reference_coercer sample_status
           (inject_Z 50) eq_refl).
Defined.

Lemma lead_time_days_bounds_witness :
  @_lead_time_days reference_coercer sample_dates
  = Returns (Some (inject_Z 4)) /\
  (0 <= inject_Z 4)%Q /\ (inject_Z 4 <= 364)%Q.
Proof.
  split; [reflexivity|].
  exact (@lead_time_days_bounds reference_coercer sample_dates
           (inject_Z 4) eq_refl).
Defined.

Lemma lead_time_days_needs_three_rows_witness :
  (len (mkDataFrame ["Fecha Ingreso"; "Fecha Salida"]
          [[day 1; day 2]; [day 1; day 3]]) < 3)%nat /\
  (@_lead_time_days reference_coercer
     (mkDataFrame ["Fecha Ingreso"; "Fecha Salida"]
        [[day 1; day 2]; [day 1; day 3]]) = Returns None \/
   exists ex,
     @_lead_time_days reference_coercer
       (mkDataFrame ["Fecha Ingreso"; "Fecha Salida"]
          [[day 1; day 2]; [day 1; day 3]]) = Raises ex) /\
  (forall v,
     @_lead_time_days reference_coercer
       (mkDataFrame ["Fecha Ingreso"; "Fecha Salida"]
          [[day 1; day 2]; [day 1; day 3]]) <> Returns (Some v)) /\
  @_lead_time_days reference_coercer sample_two_rows = Raises TypeError.
Proof.
  assert (H : (len (mkDataFrame ["Fecha Ingreso"; "Fecha Salida"]
                      [[day 1; day 2]; [day 1; day 3]]) < 3)%nat)
    by (unfold len; simpl; lia).
  split; [exact H|].
  exact (@lead_time_days_needs_three_rows reference_coercer _ H).
Defined.


Lemma analizar_returns_for_plain_substring_witness :
  is_literal "acme" = true /\
  (forall hoja df, In (hoja, Some df) [("clientes", Some sample_clients)] ->
                   no_date_pair df) /\
  exists r, run [("clientes", Some sample_clients)] "acme" = Returns r.
Proof.
  assert (N : forall hoja df,
             In (hoja, Some df) [("clientes", Some sample_clients)] ->
             no_date_pair df).
  { intros hoja df [E|[]]. injection E as _ <-. left.
    intros y [<-|[<-|[]]]; reflexivity. }
  split; [reflexivity|]. split; [exact N|].
  exact (proj1 (proj2 (@analizar_returns_for_plain_substring
                         reference_coercer reference_engine
                         [("clientes", Some sample_clients)] "acme"
                         eq_refl)) N).
Defined.

Lemma analizar_ignores_substring_without_client_witness :
  (forall hoja df, In (hoja, Some df) sample_no_client ->
                   no_match is_client (columns df)) /\
  run sample_no_client "(" = run sample_no_client "".
Proof.
  assert (H : forall hoja df, In (hoja, Some df) sample_no_client ->
                              no_match is_client (columns df)).
  { intros hoja df [E|[E|[]]]; injection E as _ <-;
      intros y [<-|[]]; reflexivity. }
  split; [exact H|].
  exact (@analizar_ignores_substring_without_client reference_coercer
           reference_engine sample_no_client "(" H).
Defined.


